(** * proctorwis-connect-lambda-package: db_utils.py and ssm_utils.py

    A shallow embedding of the data-access layer (get-or-create of spaces and
    participants, the append of face-authentication logs, the
    organization-application lookup) and of the parameter-store read-through,
    with the properties the specification states about them.

    Layout: the Python runtime pieces the code calls (exceptions, str, uuid,
    datetime, json), the relational store and the cursor, the functions of
    db_utils.py and ssm_utils.py, then the lemmas. *)

From Stdlib Require Import ZArith List String Ascii Bool Lia DecimalString.
Import ListNotations.

Set Warnings "-register-all".

Local Open Scope string_scope.
Local Open Scope Z_scope.
Local Open Scope list_scope.

Notation "a +++ b" := (String.append a b) (at level 60, right associativity).

(* ===================================================================== *)
(** ** Python exceptions and outcomes *)
(* ===================================================================== *)

Module Py.

(** The exception classes the two modules can meet: the builtins raised by
    datetime and json, pymysql.err's hierarchy, botocore's. [AllocationExhausted]
    is the error the specification's taxonomy names; no statement of
    db_utils.py raises it. *)
Inductive exc_class : Type :=
| BaseException
| KeyboardInterrupt
| Exception
| TypeError
| ValueError
| OverflowError
| KeyError
| MySQLError
| MySQL_Error
| DatabaseError
| OperationalError
| IntegrityError
| ProgrammingError
| BotoCoreError
| ClientError
| ParameterNotFound
| AllocationExhausted.

Definition exc_class_eqb (a b : exc_class) : bool :=
  match a, b with
  | BaseException, BaseException | KeyboardInterrupt, KeyboardInterrupt
  | Exception, Exception | TypeError, TypeError | ValueError, ValueError
  | OverflowError, OverflowError | KeyError, KeyError
  | MySQLError, MySQLError | MySQL_Error, MySQL_Error
  | DatabaseError, DatabaseError | OperationalError, OperationalError
  | IntegrityError, IntegrityError | ProgrammingError, ProgrammingError
  | BotoCoreError, BotoCoreError | ClientError, ClientError
  | ParameterNotFound, ParameterNotFound
  | AllocationExhausted, AllocationExhausted => true
  | _, _ => false
  end.

(** The direct base class ([None] for the root). *)
Definition base (c : exc_class) : option exc_class :=
  match c with
  | BaseException => None
  | KeyboardInterrupt => Some BaseException
  | Exception => Some BaseException
  | TypeError | ValueError | KeyError => Some Exception
  | OverflowError => Some Exception
  | MySQLError => Some Exception
  | MySQL_Error => Some MySQLError
  | DatabaseError => Some MySQL_Error
  | OperationalError | IntegrityError | ProgrammingError => Some DatabaseError
  | BotoCoreError | ClientError => Some Exception
  | ParameterNotFound => Some ClientError
  | AllocationExhausted => Some Exception
  end.

Fixpoint issubclass_upto (depth : nat) (c d : exc_class) : bool :=
  exc_class_eqb c d ||
  match depth with
  | O => false
  | S k => match base c with
           | None => false
           | Some b => issubclass_upto k b d
           end
  end.

(** The hierarchy above is five levels deep. *)
Definition issubclass (c d : exc_class) : bool := issubclass_upto 5 c d.

Record exn : Type := mk_exn { exn_class : exc_class; exn_message : string }.

Definition isinstance (e : exn) (c : exc_class) : bool :=
  issubclass (exn_class e) c.

Inductive outcome (A : Type) : Type :=
| Return (a : A)
| Raise (e : exn).
Arguments Return {A} a.
Arguments Raise {A} e.

(** Python values, as far as the documents handed to json.dumps and the
    default of get_parameter need them. A float is carried by its repr, an
    object of any other type by the name of its type; a dict keeps its items
    in insertion order. A str is a sequence of code points below 256. *)
Inductive pyvalue : Type :=
| PyNone
| PyBool (b : bool)
| PyInt (n : Z)
| PyFloat (repr : string)
| PyStr (s : string)
| PyList (items : list pyvalue)
| PyDict (items : list (pyvalue * pyvalue))
| PyObject (type_name : string).

(** str(n) of an int. *)
Definition str_of_int (n : Z) : string := NilZero.string_of_int (Z.to_int n).

Definition digit_char (d : Z) : ascii :=
  ascii_of_nat (48 + Z.to_nat d).

Definition hex_char (d : Z) : ascii :=
  if d <? 10 then ascii_of_nat (48 + Z.to_nat d)
  else ascii_of_nat (87 + Z.to_nat d).

(** The last [width] digits of [n] in base [b], most significant first. *)
Fixpoint fixed_digits (ch : Z -> ascii) (b : Z) (width : nat) (n : Z) : string :=
  match width with
  | O => EmptyString
  | S w => fixed_digits ch b w (n / b) +++ String (ch (n mod b)) EmptyString
  end.

(** ['%0Nd' % n]: at least [width] characters, zeros on the left, the sign
    first. *)
Definition format_0Nd (width : nat) (n : Z) : string :=
  if n <? 0 then
    String "-" (if -n <? 10 ^ Z.of_nat (Nat.pred width)
                then fixed_digits digit_char 10 (Nat.pred width) (- n)
                else str_of_int (- n))
  else if n <? 10 ^ Z.of_nat width then fixed_digits digit_char 10 width n
  else str_of_int n.

(** The number of hexadecimal digits of a positive int. *)
Fixpoint hex_width (fuel : nat) (n : Z) : nat :=
  match fuel with
  | O => O
  | S k => if n <=? 0 then O else S (hex_width k (n / 16))
  end.

(** ['%0Nx' % n] for [0 <= n]. *)
Definition format_0Nx (width : nat) (n : Z) : string :=
  if n <? 16 ^ Z.of_nat width then fixed_digits hex_char 16 width n
  else let w := hex_width (Z.to_nat (Z.log2 n) + 1) n in fixed_digits hex_char 16 w n.

(** [s.replace(old, new)] for a non-empty [old]: occurrences are found left
    to right and do not overlap. [skip] counts the characters of a match not
    yet passed. *)
Fixpoint replace_from (old new : string) (skip : nat) (s : string) : string :=
  match s with
  | EmptyString => EmptyString
  | String c rest =>
      match skip with
      | S k => replace_from old new k rest
      | O => if String.prefix old s
             then new +++ replace_from old new (Nat.pred (String.length old)) rest
             else String c (replace_from old new O rest)
      end
  end.

Definition str_replace (s old new : string) : string := replace_from old new O s.

(** [s] without the occurrences of the character [sep]: what the
    specification calls stripping the separator characters. *)
Fixpoint strip (sep : ascii) (s : string) : string :=
  match s with
  | EmptyString => EmptyString
  | String c rest => if Ascii.eqb c sep then strip sep rest else String c (strip sep rest)
  end.

End Py.
Export Py.

(* ===================================================================== *)
(** ** uuid.uuid4().hex *)
(* ===================================================================== *)

Module Uuid.

(** [UUID(bytes=..., version=v).int]: the 16 bytes read as a big-endian int,
    with the variant and the version bits set as uuid.py sets them. *)
Definition UUID_int (n : Z) (version : Z) : Z :=
  let n := Z.land n (Z.lnot (Z.shiftl 0xc000 48)) in
  let n := Z.lor n (Z.shiftl 0x8000 48) in
  let n := Z.land n (Z.lnot (Z.shiftl 0xf000 64)) in
  Z.lor n (Z.shiftl version 76).

(** [UUID.hex]: ['%032x' % self.int]. *)
Definition hex (n : Z) : string := format_0Nx 32 n.

(** [uuid.uuid4().hex] on the 128 bits [os.urandom(16)] returned. *)
Definition uuid4_hex (random : Z) : string :=
  hex (UUID_int (random mod 2 ^ 128) 4).

(** The value a string of hexadecimal digits denotes ([int(s, 16)]); [None]
    on any other character. *)
Definition hex_value (c : ascii) : option Z :=
  let n := Z.of_nat (nat_of_ascii c) in
  if (48 <=? n) && (n <=? 57) then Some (n - 48)
  else if (97 <=? n) && (n <=? 102) then Some (n - 87)
  else None.

Fixpoint int_of_hex_from (acc : Z) (s : string) : option Z :=
  match s with
  | EmptyString => Some acc
  | String c rest =>
      match hex_value c with
      | None => None
      | Some d => int_of_hex_from (16 * acc + d) rest
      end
  end.

Definition int_of_hex (s : string) : option Z := int_of_hex_from 0 s.

Fixpoint all_chars (p : ascii -> bool) (s : string) : bool :=
  match s with
  | EmptyString => true
  | String c rest => p c && all_chars p rest
  end.

Definition is_hex_digit (c : ascii) : bool :=
  match hex_value c with Some _ => true | None => false end.

(** The bits [UUID_int] forces: the variant (63, 62) and the version
    (79 .. 76). *)
Definition forced_bit (i : Z) : bool :=
  (i =? 62) || (i =? 63) || (i =? 76) || (i =? 77) || (i =? 78) || (i =? 79).

(** No mask of [UUID_int] touches bit [i]. *)
Definition masks_clear (i : Z) : bool :=
  negb (Z.testbit (Z.shiftl 0xc000 48) i) && negb (Z.testbit (Z.shiftl 0x8000 48) i)
  && negb (Z.testbit (Z.shiftl 0xf000 64) i) && negb (Z.testbit (Z.shiftl 4 76) i).

End Uuid.

(* ===================================================================== *)
(** ** datetime: ordinals, timedelta, addition, strftime *)
(* ===================================================================== *)

Module Datetime.

Record datetime : Type := mk_datetime {
  year : Z; month : Z; day : Z;
  hour : Z; minute : Z; second : Z; microsecond : Z
}.

Record timedelta : Type := mk_timedelta {
  days : Z; seconds : Z; microseconds : Z
}.

Definition MINYEAR : Z := 1.
Definition MAXYEAR : Z := 9999.
Definition MAXORDINAL : Z := 3652059.

Definition DAYS_IN_MONTH : list Z :=
  [-1; 31; 28; 31; 30; 31; 30; 31; 31; 30; 31; 30; 31].

Definition DAYS_BEFORE_MONTH : list Z :=
  [-1; 0; 31; 59; 90; 120; 151; 181; 212; 243; 273; 304; 334].

Definition is_leap (y : Z) : bool :=
  (y mod 4 =? 0) && (negb (y mod 100 =? 0) || (y mod 400 =? 0)).

Definition days_before_year (y : Z) : Z :=
  let y := y - 1 in y * 365 + y / 4 - y / 100 + y / 400.

Definition days_in_month (y m : Z) : Z :=
  if (m =? 2) && is_leap y then 29 else nth (Z.to_nat m) DAYS_IN_MONTH 0.

Definition days_before_month (y m : Z) : Z :=
  nth (Z.to_nat m) DAYS_BEFORE_MONTH 0 + (if (2 <? m) && is_leap y then 1 else 0).

Definition ymd2ord (y m d : Z) : Z :=
  days_before_year y + days_before_month y m + d.

Definition DI400Y : Z := 146097.
Definition DI100Y : Z := 36524.
Definition DI4Y : Z := 1461.

(** [_ord2ymd]: the (year, month, day) of a proleptic Gregorian ordinal. *)
Definition ord2ymd (n : Z) : Z * Z * Z :=
  let n := n - 1 in
  let n400 := n / DI400Y in
  let n := n mod DI400Y in
  let year := n400 * 400 + 1 in
  let n100 := n / DI100Y in
  let n := n mod DI100Y in
  let n4 := n / DI4Y in
  let n := n mod DI4Y in
  let n1 := n / 365 in
  let n := n mod 365 in
  let year := year + n100 * 100 + n4 * 4 + n1 in
  if (n1 =? 4) || (n100 =? 4) then (year - 1, 12, 31)
  else
    let leapyear := (n1 =? 3) && (negb (n4 =? 24) || (n100 =? 3)) in
    let month := Z.shiftr (n + 50) 5 in
    let preceding :=
      nth (Z.to_nat month) DAYS_BEFORE_MONTH 0
      + (if (2 <? month) && leapyear then 1 else 0) in
    if n <? preceding then
      let month := month - 1 in
      let preceding :=
        preceding - (nth (Z.to_nat month) DAYS_IN_MONTH 0
                     + (if (month =? 2) && leapyear then 1 else 0)) in
      (year, month, n - preceding + 1)
    else (year, month, n - preceding + 1).

Definition toordinal (t : datetime) : Z := ymd2ord (year t) (month t) (day t).

(** The fields a datetime object can hold. *)
Definition valid (t : datetime) : Prop :=
  MINYEAR <= year t <= MAXYEAR /\ 1 <= month t <= 12 /\
  1 <= day t <= days_in_month (year t) (month t) /\
  0 <= hour t < 24 /\ 0 <= minute t < 60 /\ 0 <= second t < 60 /\
  0 <= microsecond t < 1000000.

Definition validb (t : datetime) : bool :=
  (MINYEAR <=? year t) && (year t <=? MAXYEAR) && (1 <=? month t) && (month t <=? 12)
  && (1 <=? day t) && (day t <=? days_in_month (year t) (month t))
  && (0 <=? hour t) && (hour t <? 24) && (0 <=? minute t) && (minute t <? 60)
  && (0 <=? second t) && (second t <? 60)
  && (0 <=? microsecond t) && (microsecond t <? 1000000).

(** [timedelta(days, seconds, microseconds, minutes=, hours=)] on ints: the
    carries are folded and the magnitude of days is limited. *)
Definition new_timedelta (d s us mins hrs : Z) : outcome timedelta :=
  let s := s + mins * 60 + hrs * 3600 + us / 1000000 in
  let us := us mod 1000000 in
  let d := d + s / 86400 in
  let s := s mod 86400 in
  if 999999999 <? Z.abs d
  then Raise (mk_exn OverflowError
                ("days=" +++ str_of_int d +++ "; must have magnitude <= 999999999"))
  else Return (mk_timedelta d s us).

Definition timedelta_add (a b : timedelta) : outcome timedelta :=
  new_timedelta (days a + days b) (seconds a + seconds b)
                (microseconds a + microseconds b) 0 0.

(** [datetime.__add__(self, other)]. *)
Definition datetime_add (t : datetime) (other : timedelta) : outcome datetime :=
  match new_timedelta (toordinal t) (second t) (microsecond t) (minute t) (hour t) with
  | Raise e => Raise e
  | Return delta =>
      match timedelta_add delta other with
      | Raise e => Raise e
      | Return delta =>
          let hour := seconds delta / 3600 in
          let rem := seconds delta mod 3600 in
          let minute := rem / 60 in
          let second := rem mod 60 in
          if (0 <? days delta) && (days delta <=? MAXORDINAL) then
            let '(y, m, d) := ord2ymd (days delta) in
            Return (mk_datetime y m d hour minute second (microseconds delta))
          else Raise (mk_exn OverflowError "date value out of range")
      end
  end.

(** One strftime directive. The directives of the format db_utils.py passes
    are written as the library documents them (%Y as 0001 .. 9999, %f in six
    digits); any other directive is left in the text as it stands. *)
Definition directive (c : ascii) (t : datetime) : string :=
  if Ascii.eqb c "Y" then format_0Nd 4 (year t)
  else if Ascii.eqb c "m" then format_0Nd 2 (month t)
  else if Ascii.eqb c "d" then format_0Nd 2 (day t)
  else if Ascii.eqb c "H" then format_0Nd 2 (hour t)
  else if Ascii.eqb c "M" then format_0Nd 2 (minute t)
  else if Ascii.eqb c "S" then format_0Nd 2 (second t)
  else if Ascii.eqb c "f" then format_0Nd 6 (microsecond t)
  else if Ascii.eqb c "%" then String "%" EmptyString
  else String "%" (String c EmptyString).

Fixpoint strftime (t : datetime) (fmt : string) : string :=
  match fmt with
  | EmptyString => EmptyString
  | String c rest =>
      if Ascii.eqb c "%" then
        match rest with
        | EmptyString => String c EmptyString
        | String k rest' => directive k t +++ strftime t rest'
        end
      else String c (strftime t rest)
  end.

End Datetime.

(* ===================================================================== *)
(** ** json.dumps with its default arguments *)
(* ===================================================================== *)

Module Json.

Definition dquote : ascii := ascii_of_nat 34.
Definition backslash : ascii := ascii_of_nat 92.

(** [ensure_ascii]: the quote and the backslash are escaped, the printable
    ASCII characters stand for themselves, every other code point is written
    with its short escape or as [\uXXXX]. *)
Definition escape_char (c : ascii) : string :=
  let n := nat_of_ascii c in
  if Nat.eqb n 34 then String backslash (String dquote EmptyString)
  else if Nat.eqb n 92 then String backslash (String backslash EmptyString)
  else if Nat.eqb n 10 then String backslash "n"
  else if Nat.eqb n 13 then String backslash "r"
  else if Nat.eqb n 9 then String backslash "t"
  else if Nat.eqb n 8 then String backslash "b"
  else if Nat.eqb n 12 then String backslash "f"
  else if Nat.leb 32 n && Nat.leb n 126 then String c EmptyString
  else String backslash (String "u" (format_0Nx 4 (Z.of_nat n))).

Fixpoint escape (s : string) : string :=
  match s with
  | EmptyString => EmptyString
  | String c rest => escape_char c +++ escape rest
  end.

Definition encode_str (s : string) : string :=
  String dquote (escape s +++ String dquote EmptyString).

Definition encode_float (repr : string) : string :=
  if String.eqb repr "nan" then "NaN"
  else if String.eqb repr "inf" then "Infinity"
  else if String.eqb repr "-inf" then "-Infinity"
  else repr.

Definition type_name (v : pyvalue) : string :=
  match v with
  | PyNone => "NoneType"
  | PyBool _ => "bool"
  | PyInt _ => "int"
  | PyFloat _ => "float"
  | PyStr _ => "str"
  | PyList _ => "list"
  | PyDict _ => "dict"
  | PyObject t => t
  end.

(** A dict key: str, int, float, bool and None are written as strings, any
    other key is a TypeError. *)
Definition encode_key (k : pyvalue) : outcome string :=
  match k with
  | PyStr s => Return s
  | PyBool true => Return "true"
  | PyBool false => Return "false"
  | PyNone => Return "null"
  | PyInt n => Return (str_of_int n)
  | PyFloat r => Return (encode_float r)
  | _ => Raise (mk_exn TypeError
                  ("keys must be str, int, float, bool or None, not " +++ type_name k))
  end.

Fixpoint join (sep : string) (l : list string) : string :=
  match l with
  | [] => EmptyString
  | [x] => x
  | x :: rest => x +++ sep +++ join sep rest
  end.

Fixpoint dumps (v : pyvalue) : outcome string :=
  match v with
  | PyNone => Return "null"
  | PyBool true => Return "true"
  | PyBool false => Return "false"
  | PyInt n => Return (str_of_int n)
  | PyFloat r => Return (encode_float r)
  | PyStr s => Return (encode_str s)
  | PyList items =>
      let fix each (l : list pyvalue) : outcome (list string) :=
        match l with
        | [] => Return []
        | x :: rest =>
            match dumps x with
            | Raise e => Raise e
            | Return s =>
                match each rest with
                | Raise e => Raise e
                | Return ss => Return (s :: ss)
                end
            end
        end in
      match each items with
      | Raise e => Raise e
      | Return ss => Return ("[" +++ join ", " ss +++ "]")
      end
  | PyDict items =>
      let fix each (l : list (pyvalue * pyvalue)) : outcome (list string) :=
        match l with
        | [] => Return []
        | (k, x) :: rest =>
            match encode_key k with
            | Raise e => Raise e
            | Return ks =>
                match dumps x with
                | Raise e => Raise e
                | Return s =>
                    match each rest with
                    | Raise e => Raise e
                    | Return ss => Return ((encode_str ks +++ ": " +++ s) :: ss)
                    end
                end
            end
        end in
      match each items with
      | Raise e => Raise e
      | Return ss => Return ("{" +++ join ", " ss +++ "}")
      end
  | PyObject t =>
      Raise (mk_exn TypeError ("Object of type " +++ t +++ " is not JSON serializable"))
  end.

(** The documents json.dumps writes: None, bools, ints, floats and strs,
    lists of such, and dicts of such whose keys are str, int, float, bool or
    None. *)
Definition key_ok (k : pyvalue) : bool :=
  match k with
  | PyStr _ | PyBool _ | PyNone | PyInt _ | PyFloat _ => true
  | _ => false
  end.

Fixpoint serializable (v : pyvalue) : bool :=
  match v with
  | PyNone | PyBool _ | PyInt _ | PyFloat _ | PyStr _ => true
  | PyList items => forallb serializable items
  | PyDict items =>
      (fix each (l : list (pyvalue * pyvalue)) : bool :=
         match l with
         | [] => true
         | (k, x) :: rest => key_ok k && serializable x && each rest
         end) items
  | PyObject _ => false
  end.

End Json.

(* ===================================================================== *)
(** ** Computations: state, exceptions, and loops that may not end *)
(* ===================================================================== *)

Module Monad.

(** A computation over a state [S]: [None] when the fuel given to a loop ran
    out before the computation finished, otherwise the outcome and the state
    it left. *)
Definition M (S A : Type) : Type := S -> option (outcome A * S).

Definition ret {S A} (a : A) : M S A := fun w => Some (Return a, w).

Definition raise {S A} (e : exn) : M S A := fun w => Some (Raise e, w).

Definition bind {S A B} (m : M S A) (k : A -> M S B) : M S B := fun w =>
  match m w with
  | None => None
  | Some (Raise e, w') => Some (Raise e, w')
  | Some (Return a, w') => k a w'
  end.

Definition diverge {S A} : M S A := fun _ => None.

(** The outcome of a pure library call, raised or returned in place. *)
Definition lift {S A} (o : outcome A) : M S A := fun w => Some (o, w).

(** [try: body / except c1: h1 / except c2: h2 ...]: the first clause whose
    class the exception is an instance of handles it; with no such clause the
    exception goes on to the caller. *)
Fixpoint handle {S A} (handlers : list (exc_class * (exn -> M S A))) (e : exn) : M S A :=
  match handlers with
  | [] => raise e
  | (c, h) :: rest => if isinstance e c then h e else handle rest e
  end.

Definition try_ {S A} (body : M S A) (handlers : list (exc_class * (exn -> M S A))) : M S A :=
  fun w =>
    match body w with
    | Some (Raise e, w') => handle handlers e w'
    | r => r
    end.

(** A bare [raise] inside a handler: the exception being handled. *)
Definition reraise {S A} (e : exn) : M S A := raise e.

(** [while cond: body] over the local variables [st]; [fuel] bounds the
    number of iterations the model follows. *)
Fixpoint while {S St} (fuel : nat) (cond : St -> bool) (body : St -> M S St) (st : St)
  : M S St :=
  if cond st then
    match fuel with
    | O => diverge
    | Datatypes.S k => bind (body st) (while k cond body)
    end
  else ret st.

End Monad.
Import Monad.

Notation "x <- m ;; k" := (bind m (fun x => k))
  (at level 61, m at next level, right associativity).

(* ===================================================================== *)
(** ** The relational store behind the pymysql connection *)
(* ===================================================================== *)

(** A row is the dict a DictCursor returns, with the columns the code reads
    or writes; a column the schema may add and the code never touches is left
    out, except in organization_apps, whose rows the code hands on whole. A
    WHERE clause compares a column with the value of the parameter. *)

Module Space.
(** [space['id']] and [space['open_result_days']] are ints: a dict without
    them, or with None in them, is not a value of this type. *)
Record t : Type := mk {
  id : Z;
  organization_id : Z;
  space_code : string;
  space_name : string;
  open_result_days : Z
}.
End Space.

Module Participant.
(** [result_closed_at] is the text the INSERT supplied. *)
Record t : Type := mk {
  id : Z;
  uuid : string;
  organization_id : Z;
  space_id : Z;
  participant_code : string;
  participant_user_code : string;
  participant_name : string;
  result_closed_at : string
}.
End Participant.

Module FaceAuthLog.
(** [threshold] is a float, carried by its repr. *)
Record t : Type := mk {
  authentication_code : string;
  organization_id : Z;
  space_id : Z;
  participant_id : Z;
  is_authenticated : bool;
  reason : string;
  logs : string;
  threshold : string
}.
End FaceAuthLog.

Module OrganizationApp.
Record t : Type := mk {
  id : Z;
  uuid : string;
  columns : list (string * pyvalue)
}.
End OrganizationApp.

Module Db.

(** The four tables, rows in insertion order. The schema is not part of the
    repository: the AUTO_INCREMENT counters of the two tables whose
    [lastrowid] the code reads, and the column default that fills
    [open_result_days] of a space inserted without it, are fields of the
    store. *)
Record Store : Type := mk_store {
  organization_apps : list OrganizationApp.t;
  spaces : list Space.t;
  spaces_auto_increment : Z;
  default_open_result_days : Z;
  participants : list Participant.t;
  participants_auto_increment : Z;
  face_auth_logs : list FaceAuthLog.t
}.

(** What a run can observe besides the tables: how many random draws, clock
    readings and SQL statements it has made so far. *)
Record World : Type := mk_world {
  db : Store;
  entropy_used : nat;
  clock_reads : nat;
  statements : nat
}.

(** The surroundings of a run: the i-th value of [os.urandom(16)], the i-th
    reading of [datetime.datetime.now()], and whether the i-th statement sent
    to the server fails (with the exception pymysql raises). *)
Record Env : Type := mk_env {
  urandom : nat -> Z;
  now : nat -> Datetime.datetime;
  fault : nat -> option exn
}.

(** *** Statements *)

Definition select_organization_apps_by_uuid (uuid : string) (s : Store)
  : list OrganizationApp.t :=
  filter (fun r => String.eqb (OrganizationApp.uuid r) uuid) (organization_apps s).

Definition select_spaces_by_key (organization_id : Z) (space_code : string) (s : Store)
  : list Space.t :=
  filter (fun r => (Space.organization_id r =? organization_id)
                   && String.eqb (Space.space_code r) space_code) (spaces s).

Definition select_spaces_by_id (id : Z) (s : Store) : list Space.t :=
  filter (fun r => Space.id r =? id) (spaces s).

Definition insert_space (organization_id : Z) (space_code space_name : string) (s : Store)
  : Z * Store :=
  let id := spaces_auto_increment s in
  let row := Space.mk id organization_id space_code space_name
                      (default_open_result_days s) in
  (id, mk_store (organization_apps s) (spaces s ++ [row]) (id + 1)
                (default_open_result_days s) (participants s)
                (participants_auto_increment s) (face_auth_logs s)).

Definition select_participants_by_key (organization_id space_id : Z)
  (participant_code : string) (s : Store) : list Participant.t :=
  filter (fun r => (Participant.organization_id r =? organization_id)
                   && (Participant.space_id r =? space_id)
                   && String.eqb (Participant.participant_code r) participant_code)
         (participants s).

Definition select_participants_by_uuid (uuid : string) (s : Store)
  : list Participant.t :=
  filter (fun r => String.eqb (Participant.uuid r) uuid) (participants s).

Definition select_participants_by_id (id : Z) (s : Store) : list Participant.t :=
  filter (fun r => Participant.id r =? id) (participants s).

Definition insert_participant (uuid : string) (organization_id space_id : Z)
  (participant_code participant_user_code participant_name result_closed_at : string)
  (s : Store) : Z * Store :=
  let id := participants_auto_increment s in
  let row := Participant.mk id uuid organization_id space_id participant_code
                            participant_user_code participant_name result_closed_at in
  (id, mk_store (organization_apps s) (spaces s) (spaces_auto_increment s)
                (default_open_result_days s) (participants s ++ [row])
                (id + 1) (face_auth_logs s)).

Definition insert_face_auth_log (row : FaceAuthLog.t) (s : Store) : unit * Store :=
  (tt, mk_store (organization_apps s) (spaces s) (spaces_auto_increment s)
                (default_open_result_days s) (participants s)
                (participants_auto_increment s) (face_auth_logs s ++ [row])).

(** A SELECT leaves the tables as they are. *)
Definition query {A} (q : Store -> A) (s : Store) : A * Store := (q s, s).

(** *** The cursor *)

Section Cursor.
Variable env : Env.

(** [cursor.execute(sql, args)]: the statement reaches the server, which
    either fails it (nothing changes) or runs it. The value is what the
    cursor holds afterwards: the rows of a SELECT, the [lastrowid] of an
    INSERT. *)
Definition execute {A} (stmt : Store -> A * Store) : M World A := fun w =>
  let w1 := mk_world (db w) (entropy_used w) (clock_reads w) (S (statements w)) in
  match fault env (statements w) with
  | Some e => Some (Raise e, w1)
  | None =>
      let '(a, s') := stmt (db w) in
      Some (Return a, mk_world s' (entropy_used w) (clock_reads w) (S (statements w)))
  end.

(** [uuid.uuid4().hex]: one draw of 16 random bytes. *)
Definition uuid4_hex : M World string := fun w =>
  Some (Return (Uuid.uuid4_hex (urandom env (entropy_used w))),
        mk_world (db w) (S (entropy_used w)) (clock_reads w) (statements w)).

(** The j-th candidate identifier of a run that starts in [w]. *)
Definition candidate_after (w : World) (j : nat) : string :=
  Uuid.uuid4_hex (urandom env (entropy_used w + j)).

(** [datetime.datetime.now()]: one reading of the clock. *)
Definition datetime_now : M World Datetime.datetime := fun w =>
  Some (Return (now env (clock_reads w)),
        mk_world (db w) (entropy_used w) (S (clock_reads w)) (statements w)).

End Cursor.

(** [cursor.fetchone()] right after a SELECT: the first row, or None. *)
Definition fetchone {R} (rows : list R) : option R := hd_error rows.

(** The world after one statement that changed no table. *)
Definition one_statement_later (w : World) : World :=
  mk_world (db w) (entropy_used w) (clock_reads w) (S (statements w)).

(** A computation keeps a property of the tables: whenever it ends, however
    it ends, the property holds afterwards if it held before. *)
Definition preserves {A} (P : Store -> Prop) (m : M World A) : Prop :=
  forall w o w', m w = Some (o, w') -> P (db w) -> P (db w').

(** Where an exception of a run can come from: the date computation
    overflowed, or the server failed a statement. *)
Definition from_date_or_store (env : Env) (e : exn) : Prop :=
  exn_class e = OverflowError \/ exists i, fault env i = Some e.

(** The primary keys of the two AUTO_INCREMENT tables lie below their
    counters, so the next key is not in use. *)
Definition keys_below_counters (s : Store) : Prop :=
  Forall (fun r => Space.id r < spaces_auto_increment s) (spaces s) /\
  Forall (fun r => Participant.id r < participants_auto_increment s) (participants s).

(** The world after [k] candidates were drawn and looked up, each found. *)
Definition advance (w : World) (k : nat) : World :=
  mk_world (db w) (entropy_used w + k) (clock_reads w) (statements w + k).

(** The uniqueness the data model asks of the tables: of the natural key of
    a space, of the natural key of a participant, of the uuid of a
    participant. *)
Definition unique_space_keys (s : Store) : Prop :=
  NoDup (map (fun r => (Space.organization_id r, Space.space_code r)) (spaces s)).

Definition unique_participant_keys (s : Store) : Prop :=
  NoDup (map (fun r => (Participant.organization_id r, Participant.space_id r,
                        Participant.participant_code r)) (participants s)).

Definition unique_uuids (s : Store) : Prop :=
  NoDup (map Participant.uuid (participants s)).

End Db.
Import Db.

(* ===================================================================== *)
(** ** db_utils.py *)
(* ===================================================================== *)

Module DbUtils.

Section Functions.
Variable env : Env.

(** [with conn.cursor() as cursor] opens and closes a buffered cursor, which
    sends nothing to the server: the statements below are all a call does to
    the connection. *)

Definition get_organization_app (uuid : string) : M World (option OrganizationApp.t) :=
  let uuid := str_replace uuid "-" "" in
  try_
    (rows <- execute env (query (select_organization_apps_by_uuid uuid)) ;;
     let organization_app := fetchone rows in
     ret organization_app)
    [(MySQLError, reraise)].

Definition get_or_create_space (organization_id : Z) (space_code space_name : string)
  : M World (option Space.t) :=
  try_
    (rows <- execute env (query (select_spaces_by_key organization_id space_code)) ;;
     let space := fetchone rows in
     match space with
     | None =>
         space_id <- execute env (insert_space organization_id space_code space_name) ;;
         rows <- execute env (query (select_spaces_by_id space_id)) ;;
         let space := fetchone rows in
         ret space
     | Some _ => ret space
     end)
    [(MySQLError, reraise)].

(** Lines 125-126 once the clock has been read:
    [(now + datetime.timedelta(days=open_result_days)).strftime(...)]. *)
Definition result_closed_at (t : Datetime.datetime) (open_result_days : Z)
  : outcome string :=
  match Datetime.new_timedelta open_result_days 0 0 0 0 with
  | Raise e => Raise e
  | Return delta =>
      match Datetime.datetime_add t delta with
      | Raise e => Raise e
      | Return closed => Return (Datetime.strftime closed "%Y-%m-%d %H:%M:%S.%f")
      end
  end.

(** The body of [while exist:]; the loop's variables are [exist] and
    [participant]. *)
Definition allocate_and_insert (organization_id : Z) (space : Space.t)
  (participant_code participant_user_code participant_name : string)
  (st : bool * option Participant.t) : M World (bool * option Participant.t) :=
  participant_uuid <- uuid4_hex env ;;
  rows <- execute env (query (select_participants_by_uuid participant_uuid)) ;;
  let exist_participant := fetchone rows in
  match exist_participant with
  | None =>
      t <- datetime_now env ;;
      result_closed_at <- lift (result_closed_at t (Space.open_result_days space)) ;;
      participant_id <-
        execute env (insert_participant participant_uuid organization_id (Space.id space)
                       participant_code participant_user_code participant_name
                       result_closed_at) ;;
      rows <- execute env (query (select_participants_by_id participant_id)) ;;
      let participant := fetchone rows in
      ret (false, participant)
  | Some _ => ret st
  end.

Definition get_or_create_participant (fuel : nat) (organization_id : Z) (space : Space.t)
  (participant_code participant_user_code participant_name : string)
  : M World (option Participant.t) :=
  try_
    (rows <- execute env (query (select_participants_by_key organization_id
                                   (Space.id space) participant_code)) ;;
     let participant := fetchone rows in
     match participant with
     | None =>
         let exist := true in
         st <- while fuel fst
                 (allocate_and_insert organization_id space participant_code
                    participant_user_code participant_name)
                 (exist, participant) ;;
         ret (snd st)
     | Some _ => ret participant
     end)
    [(MySQLError, reraise)].

Definition create_face_auth_log (organization_id space_id participant_id : Z)
  (authentication_code : string) (is_authenticated : bool) (reason logs : pyvalue)
  (threshold : string) : M World bool :=
  _ <- try_
         (reason_json <- lift (Json.dumps reason) ;;
          logs_json <- lift (Json.dumps logs) ;;
          execute env (insert_face_auth_log
                         (FaceAuthLog.mk authentication_code organization_id space_id
                            participant_id is_authenticated reason_json logs_json
                            threshold)))
         [(MySQLError, reraise)] ;;
  ret true.

End Functions.

End DbUtils.

(* ===================================================================== *)
(** ** ssm_utils.py *)
(* ===================================================================== *)

Module SsmUtils.

(** The response of [ssm.get_parameter]: [response['Parameter']['Value']] is
    the one path the code reads. *)
Record ParameterT : Type := mk_parameter { Name : string; Value : string }.
Record GetParameterResult : Type := mk_response { Parameter_ : ParameterT }.

Record LogRecord : Type := mk_record { levelname : string; message : string }.

(** What the logger of the module has been handed so far. *)
Record World : Type := mk_world { log : list LogRecord }.

(** The parameter store as the call sees it: creating the client and asking
    for a name (with or without decryption) each return or raise. *)
Record Env : Type := mk_env {
  boto3_client : outcome unit;
  ssm_get_parameter : string -> bool -> outcome GetParameterResult
}.

Definition logger_warning (msg : string) : M World unit := fun w =>
  Some (Return tt, mk_world (log w ++ [mk_record "WARNING" msg])).

Section Functions.
Variable env : Env.

Definition get_parameter (param_key : string) (default_value : pyvalue) : M World pyvalue :=
  _ <- lift (boto3_client env) ;;
  try_
    (response <- lift (ssm_get_parameter env param_key true) ;;
     ret (PyStr (Value (Parameter_ response))))
    [(ParameterNotFound,
      fun _ =>
        _ <- logger_warning ("Parameter {" +++ param_key
                             +++ "} not found. Returning default value.") ;;
        ret default_value);
     (Exception, reraise)].

End Functions.

End SsmUtils.

(* ===================================================================== *)
(** ** Concrete stores and runs *)
(* ===================================================================== *)

Module Scenario.

(** No statement fails, the clock stands at 2024-01-01T00:00:00, and the
    i-th draw of random bytes is the number i. *)
Definition new_year : Datetime.datetime := Datetime.mk_datetime 2024 1 1 0 0 0 0.

Definition env : Db.Env :=
  Db.mk_env (fun i => Z.of_nat i) (fun _ => new_year) (fun _ => None).

Definition empty_store : Store := mk_store [] [] 1 7 [] 1 [].
Definition empty_world : Db.World := Db.mk_world empty_store 0 0 0.

Definition space_one : Space.t := Space.mk 1 42 "S1" "Space One" 7.
Definition space_three_days : Space.t := Space.mk 1 42 "S1" "Space One" 3.

Definition alice : Participant.t :=
  Participant.mk 1 (Uuid.uuid4_hex 77) 42 1 "P1" "U1" "Alice" "2024-01-08 00:00:00.000000".

(** One space and one participant already resolved. *)
Definition settled_store : Store := mk_store [] [space_one] 2 7 [alice] 2 [].
Definition settled_world : Db.World := Db.mk_world settled_store 0 0 0.

(** A space with a three-day window and no participant yet. *)
Definition fresh_store : Store := mk_store [] [space_three_days] 2 7 [] 1 [].
Definition fresh_world : Db.World := Db.mk_world fresh_store 0 0 0.

(** Participants that already hold the identifiers of the first [n] draws. *)
Definition holders (n : nat) : list Participant.t :=
  map (fun i => Participant.mk (Z.of_nat i + 1) (Uuid.uuid4_hex (Z.of_nat i)) 42 1
                  ("Q" +++ str_of_int (Z.of_nat i)) "U" "N" "2024-01-08 00:00:00.000000")
      (seq 0 n).

Definition crowded_store : Store := mk_store [] [space_one] 2 7 (holders 11) 12 [].
Definition crowded_world : Db.World := Db.mk_world crowded_store 0 0 0.

(** The participant the crowded store gains: the twelfth identifier. *)
Definition newcomer : Participant.t :=
  Participant.mk 12 (Uuid.uuid4_hex 11) 42 1 "P1" "U1" "Alice" "2024-01-08 00:00:00.000000".

Definition reason : pyvalue :=
  PyDict [(PyStr "code", PyStr "distance"); (PyStr "matched", PyBool true)].
Definition logs : pyvalue :=
  PyDict [(PyStr "distances", PyList [PyFloat "0.41"; PyFloat "0.39"]);
          (PyStr "frames", PyInt 2)].

(** The row create_face_auth_log writes for these two documents. *)
Definition log_row : FaceAuthLog.t :=
  FaceAuthLog.mk "AC-1" 42 1 1 true
    ("{" +++ Json.encode_str "code" +++ ": " +++ Json.encode_str "distance"
       +++ ", " +++ Json.encode_str "matched" +++ ": true}")
    ("{" +++ Json.encode_str "distances" +++ ": [0.41, 0.39], "
       +++ Json.encode_str "frames" +++ ": 2}")
    "0.6".

Definition registry : list OrganizationApp.t :=
  [OrganizationApp.mk 1 "0123456789abcdef0123456789abcdef" [("organization_id", PyInt 42)]].
Definition registry_world : Db.World :=
  Db.mk_world (mk_store registry [] 1 7 [] 1 []) 0 0 0.

(** The server drops the connection at the i-th statement and at no
    other. *)
Definition lost_connection : exn :=
  mk_exn OperationalError "(2013, 'Lost connection to MySQL server during query')".

Definition failing_at (i : nat) : Db.Env :=
  Db.mk_env (fun j => Z.of_nat j) (fun _ => new_year)
    (fun j => if Nat.eqb j i then Some lost_connection else None).

(** Every draw of random bytes gives the same value, and a participant
    holds its identifier already. *)
Definition stuck_env : Db.Env :=
  Db.mk_env (fun _ => 77) (fun _ => new_year) (fun _ => None).

(** A space whose window leaves the calendar: more days than are left
    before the end of year 9999. *)
Definition space_far_future : Space.t := Space.mk 1 42 "S1" "Space One" 3000000.

(** A parameter store with one parameter, one name it refuses to serve, and
    nothing else. *)
Definition ssm_env : SsmUtils.Env :=
  SsmUtils.mk_env (Return tt)
    (fun name _ =>
       if String.eqb name "/proctorwis/api-key"
       then Return (SsmUtils.mk_response (SsmUtils.mk_parameter name "s3cr3t"))
       else if String.eqb name "/proctorwis/forbidden"
       then Raise (mk_exn ClientError "AccessDeniedException")
       else Raise (mk_exn ParameterNotFound "ParameterNotFound")).

End Scenario.

(* ===================================================================== *)
(** ** Lemmas: the Python runtime *)
(* ===================================================================== *)

Section Strings.

Lemma length_append (a b : string) :
  String.length (a +++ b) = (String.length a + String.length b)%nat.
Proof. induction a as [|c a IH]; simpl; [reflexivity | now rewrite IH]. Qed.

Lemma append_empty_r (a : string) : a +++ EmptyString = a.
Proof. induction a as [|c a IH]; simpl; [reflexivity | now rewrite IH]. Qed.

Lemma length_fixed_digits ch b width n :
  String.length (fixed_digits ch b width n) = width.
Proof.
  revert n; induction width as [|w IH]; intro n; simpl; [reflexivity|].
  rewrite length_append, IH; simpl; lia.
Qed.

Lemma length_format_0Nd width n :
  0 <= n < 10 ^ Z.of_nat width -> String.length (format_0Nd width n) = width.
Proof.
  intros [H0 H1]; unfold format_0Nd.
  destruct (n <? 0) eqn:E; [apply Z.ltb_lt in E; lia|].
  destruct (n <? 10 ^ Z.of_nat width) eqn:E'; [|apply Z.ltb_ge in E'; lia].
  apply length_fixed_digits.
Qed.

End Strings.

(* ===================================================================== *)
(** ** Lemmas: the proleptic Gregorian calendar of datetime *)
(* ===================================================================== *)

Module DatetimeFacts.
Import Datetime.

Lemma validb_spec t : validb t = true <-> valid t.
Proof.
  unfold validb, valid.
  rewrite !andb_true_iff, !Z.leb_le, !Z.ltb_lt. tauto.
Qed.

Lemma is_leap_true_iff y : is_leap y = true <-> (y mod 4 = 0 /\ (y mod 100 <> 0 \/ y mod 400 = 0)).
Proof.
  unfold is_leap. rewrite andb_true_iff, orb_true_iff, negb_true_iff, !Z.eqb_eq, Z.eqb_neq. tauto.
Qed.

Lemma mod_zero_shift x k m :
  0 < x <= m -> ((x + k * m) mod m = 0 <-> x = m).
Proof.
  intro Hx. rewrite Z_mod_plus_full.
  destruct (Z.eq_dec x m) as [->|Hne].
  - rewrite Z_mod_same_full. tauto.
  - rewrite Z.mod_small by lia. lia.
Qed.

(* the digits of the year *)
Lemma is_leap_digits a b c d :
  0 <= b <= 3 -> 0 <= c <= 24 -> 0 <= d <= 3 ->
  is_leap (400 * a + 100 * b + 4 * c + d + 1)
  = (d =? 3) && (negb (c =? 24) || (b =? 3)).
Proof.
  intros Hb Hc Hd.
  apply eq_true_iff_eq. rewrite is_leap_true_iff.
  rewrite andb_true_iff, orb_true_iff, negb_true_iff, Z.eqb_neq, !Z.eqb_eq.
  replace (400 * a + 100 * b + 4 * c + d + 1)
    with ((d + 1) + (100 * a + 25 * b + c) * 4) at 1 by ring.
  replace (400 * a + 100 * b + 4 * c + d + 1)
    with ((4 * c + d + 1) + (4 * a + b) * 100) at 1 by ring.
  replace (400 * a + 100 * b + 4 * c + d + 1)
    with ((100 * b + 4 * c + d + 1) + a * 400) by ring.
  rewrite !mod_zero_shift by lia. lia.
Qed.

Lemma days_before_year_digits a b c d :
  0 <= b <= 3 -> 0 <= c <= 24 -> 0 <= d <= 3 ->
  days_before_year (400 * a + 100 * b + 4 * c + d + 1)
  = 146097 * a + 36524 * b + 1461 * c + 365 * d.
Proof.
  intros. unfold days_before_year. Z.div_mod_to_equations. lia.
Qed.

Lemma shiftr5 r : Z.shiftr r 5 = r / 32.
Proof. now rewrite Z.shiftr_div_pow2 by lia. Qed.

Ltac eval_tables :=
  repeat match goal with
    | |- context [nth (Z.to_nat ?k) ?t 0] =>
        let v := eval vm_compute in (nth (Z.to_nat k) t 0) in
        change (nth (Z.to_nat k) t 0) with v
    end.

Ltac eval_pred :=
  repeat match goal with
    | |- context [Z.pos ?p - 1] =>
        let v := eval vm_compute in (Z.pos p - 1) in
        change (Z.pos p - 1) with v
    end.

Lemma ord2ymd_spec n :
  1 <= n ->
  exists y m d,
    ord2ymd n = (y, m, d) /\ ymd2ord y m d = n /\
    1 <= y /\ (n <= MAXORDINAL -> y <= MAXYEAR) /\
    1 <= m <= 12 /\ 1 <= d <= days_in_month y m.
Proof.
  intro Hn. unfold ord2ymd, DI400Y, DI100Y, DI4Y, MAXORDINAL, MAXYEAR.
  cbv zeta.
  set (n0 := n - 1).
  set (a := n0 / 146097). set (r1 := n0 mod 146097).
  set (b := r1 / 36524). set (r2 := r1 mod 36524).
  set (c := r2 / 1461). set (r3 := r2 mod 1461).
  set (d := r3 / 365). set (r := r3 mod 365).
  assert (Hn0 : n0 = 146097 * a + r1 /\ 0 <= r1 < 146097)
    by (subst a r1; Z.div_mod_to_equations; lia).
  assert (Hr1 : r1 = 36524 * b + r2 /\ 0 <= r2 < 36524)
    by (subst b r2; Z.div_mod_to_equations; lia).
  assert (Hr2 : r2 = 1461 * c + r3 /\ 0 <= r3 < 1461)
    by (subst c r3; Z.div_mod_to_equations; lia).
  assert (Hr3 : r3 = 365 * d + r /\ 0 <= r < 365)
    by (subst d r; Z.div_mod_to_equations; lia).
  assert (Ha : 0 <= a) by (subst a n0; apply Z.div_pos; lia).
  assert (Hn1 : n = n0 + 1) by (subst n0; lia).
  clearbody a r1 b r2 c r3 d r n0.
  assert (Hb : 0 <= b <= 4) by lia.
  assert (Hc : 0 <= c <= 24) by lia.
  assert (Hd : 0 <= d <= 4) by lia.
  destruct ((d =? 4) || (b =? 4)) eqn:Hend.
  - apply orb_true_iff in Hend. rewrite !Z.eqb_eq in Hend.
    exists (a * 400 + 1 + b * 100 + c * 4 + d - 1), 12, 31.
    split; [reflexivity|].
    assert (Hy : exists b' c',
               a * 400 + 1 + b * 100 + c * 4 + d - 1 = 400 * a + 100 * b' + 4 * c' + 3 + 1
               /\ 0 <= b' <= 3 /\ 0 <= c' <= 24 /\ (c' <> 24 \/ b' = 3)
               /\ n = 146097 * a + 36524 * b' + 1461 * c' + 365 * 3 + 366).
    { destruct (Z.eq_dec b 4) as [Hb4|Hb4].
      - exists 3, 24. lia.
      - exists b, c. lia. }
    destruct Hy as (b' & c' & -> & Hb' & Hc' & Hleap & Hn').
    unfold ymd2ord, days_before_month, days_in_month.
    rewrite is_leap_digits, days_before_year_digits by lia.
    replace ((3 =? 3) && (negb (c' =? 24) || (b' =? 3))) with true.
    2:{ symmetry. rewrite andb_true_iff, orb_true_iff, negb_true_iff, Z.eqb_neq, !Z.eqb_eq. lia. }
    eval_tables. cbn -[Z.mul Z.add Z.sub]. lia.
  - apply orb_false_iff in Hend. destruct Hend as [Hd4 Hb4].
    apply Z.eqb_neq in Hd4, Hb4.
    rewrite shiftr5.
    assert (HL : is_leap (400 * a + 100 * b + 4 * c + d + 1)
                 = (d =? 3) && (negb (c =? 24) || (b =? 3)))
      by (apply is_leap_digits; lia).
    assert (HY : days_before_year (400 * a + 100 * b + 4 * c + d + 1)
                 = 146097 * a + 36524 * b + 1461 * c + 365 * d)
      by (apply days_before_year_digits; lia).
    replace (a * 400 + 1 + b * 100 + c * 4 + d)
      with (400 * a + 100 * b + 4 * c + d + 1) by ring.
    set (L := (d =? 3) && (negb (c =? 24) || (b =? 3))) in *. clearbody L.
    set (Y := 400 * a + 100 * b + 4 * c + d + 1) in *.
    assert (HYb : 1 <= Y /\ (n <= 3652059 -> Y <= 9999)) by (subst Y; lia).
    assert (Hnr : n = 146097 * a + 36524 * b + 1461 * c + 365 * d + r + 1) by lia.
    rewrite <- HY in Hnr.
    destruct Hr3 as [_ Hr].
    clear - Hnr Hr HL HYb. clearbody Y.
    remember ((r + 50) / 32) as m0 eqn:Hm0.
    assert (Hm : 32 * m0 <= r + 50 < 32 * m0 + 32)
      by (subst m0; Z.div_mod_to_equations; lia).
    assert (Hcases : m0 = 1 \/ m0 = 2 \/ m0 = 3 \/ m0 = 4 \/ m0 = 5 \/ m0 = 6 \/
                     m0 = 7 \/ m0 = 8 \/ m0 = 9 \/ m0 = 10 \/ m0 = 11 \/ m0 = 12) by lia.
    clear Hm0.
    repeat (destruct Hcases as [Hcases|Hcases]);
      subst m0; eval_tables; cbn -[Z.mul Z.add Z.sub];
      destruct L;
      cbn -[Z.mul Z.add Z.sub];
      match goal with |- context [?x <? ?y] => destruct (Z.ltb_spec x y) end;
      eval_pred; eval_tables;
      (do 3 eexists; split; [reflexivity|]);
      unfold ymd2ord, days_before_month, days_in_month; rewrite HL;
      eval_pred; eval_tables; cbn -[Z.mul Z.add Z.sub]; lia.
Qed.

Lemma days_before_year_succ y :
  days_before_year (y + 1) = days_before_year y + 365 + (if is_leap y then 1 else 0).
Proof.
  unfold days_before_year, is_leap.
  replace (y + 1 - 1) with y by ring.
  destruct (Z.eqb_spec (y mod 4) 0); destruct (Z.eqb_spec (y mod 100) 0);
    destruct (Z.eqb_spec (y mod 400) 0); cbn -[Z.mul Z.add Z.sub Z.div];
    Z.div_mod_to_equations; lia.
Qed.

Lemma days_before_year_mono y y' : y <= y' -> days_before_year y <= days_before_year y'.
Proof.
  intro H. unfold days_before_year. Z.div_mod_to_equations. lia.
Qed.

Lemma month_day_le y m d :
  1 <= m <= 12 -> 1 <= d <= days_in_month y m ->
  1 <= days_before_month y m + d <= 365 + (if is_leap y then 1 else 0).
Proof.
  intros Hm Hd. unfold days_before_month, days_in_month in *.
  assert (Hcases : m = 1 \/ m = 2 \/ m = 3 \/ m = 4 \/ m = 5 \/ m = 6 \/
                   m = 7 \/ m = 8 \/ m = 9 \/ m = 10 \/ m = 11 \/ m = 12) by lia.
  repeat (destruct Hcases as [Hcases|Hcases]); subst m;
    destruct (is_leap y); revert Hd; eval_tables; cbn -[Z.mul Z.add Z.sub]; lia.
Qed.

Lemma toordinal_bounds t : valid t -> 1 <= toordinal t <= MAXORDINAL.
Proof.
  intros (Hy & Hm & Hd & _). unfold toordinal, ymd2ord, MINYEAR, MAXYEAR, MAXORDINAL in *.
  pose proof (month_day_le _ _ _ Hm Hd) as Hmd.
  pose proof (days_before_year_succ (year t)) as Hs.
  pose proof (days_before_year_mono 1 (year t) ltac:(lia)) as H1.
  pose proof (days_before_year_mono (year t + 1) 10000 ltac:(lia)) as H2.
  change (days_before_year 1) with 0 in H1.
  change (days_before_year 10000) with 3652059 in H2.
  lia.
Qed.

Lemma new_timedelta_days D :
  Z.abs D <= 999999999 -> new_timedelta D 0 0 0 0 = Return (mk_timedelta D 0 0).
Proof.
  intro H. unfold new_timedelta. cbn -[Z.abs Z.ltb Z.add].
  rewrite Z.add_0_r.
  destruct (Z.ltb_spec 999999999 (Z.abs D)); [lia | reflexivity].
Qed.

Lemma datetime_add_days t D :
  valid t -> 0 < toordinal t + D <= MAXORDINAL ->
  exists y m d,
    ord2ymd (toordinal t + D) = (y, m, d) /\
    datetime_add t (mk_timedelta D 0 0)
    = Return (mk_datetime y m d (hour t) (minute t) (second t) (microsecond t)).
Proof.
  intros Hv HD.
  pose proof (toordinal_bounds t Hv) as Ho.
  destruct Hv as (_ & _ & _ & Hh & Hmi & Hs & Hus).
  destruct (ord2ymd_spec (toordinal t + D) ltac:(lia)) as (y & m & d & E & _).
  exists y, m, d. split; [exact E|].
  unfold datetime_add, new_timedelta, timedelta_add, new_timedelta, MAXORDINAL in *.
  set (o := toordinal t) in *. clearbody o.
  assert (Hus0 : microsecond t / 1000000 = 0) by (apply Z.div_small; lia).
  assert (Hus1 : microsecond t mod 1000000 = microsecond t) by (apply Z.mod_small; lia).
  rewrite Hus0, Hus1.
  set (s := second t + minute t * 60 + hour t * 3600 + 0).
  assert (Hs0 : s / 86400 = 0) by (apply Z.div_small; subst s; lia).
  assert (Hs1 : s mod 86400 = s) by (apply Z.mod_small; subst s; lia).
  rewrite Hs0, Hs1.
  destruct (Z.ltb_spec 999999999 (Z.abs (o + 0))); [lia|].
  cbn [days seconds microseconds].
  replace (microsecond t + 0) with (microsecond t) by ring.
  rewrite Hus0, Hus1.
  replace (s + 0 + 0 * 60 + 0 * 3600 + 0) with s by ring.
  rewrite Hs0, Hs1.
  replace (o + 0 + D + 0) with (o + D) by ring.
  destruct (Z.ltb_spec 999999999 (Z.abs (o + D))); [lia|].
  cbn [days seconds microseconds].
  destruct (Z.ltb_spec 0 (o + D)); [|lia].
  destruct (Z.leb_spec (o + D) 3652059); [|lia].
  cbn [andb]. rewrite E.
  assert (Hh' : s / 3600 = hour t) by (subst s; Z.div_mod_to_equations; lia).
  assert (Hm' : s mod 3600 / 60 = minute t) by (subst s; Z.div_mod_to_equations; lia).
  assert (Hs' : (s mod 3600) mod 60 = second t) by (subst s; Z.div_mod_to_equations; lia).
  rewrite Hh', Hm', Hs'. reflexivity.
Qed.

Lemma strftime_format t :
  strftime t "%Y-%m-%d %H:%M:%S.%f"
  = format_0Nd 4 (year t) +++ String "-" (format_0Nd 2 (month t) +++ String "-"
      (format_0Nd 2 (day t) +++ String " " (format_0Nd 2 (hour t) +++ String ":"
        (format_0Nd 2 (minute t) +++ String ":" (format_0Nd 2 (second t) +++ String "."
          (format_0Nd 6 (microsecond t) +++ EmptyString)))))).
Proof. reflexivity. Qed.

(** The ordinal of a valid date lies within its year. *)
Lemma ymd2ord_within_year y m d :
  1 <= m <= 12 -> 1 <= d <= days_in_month y m ->
  days_before_year y < ymd2ord y m d <= days_before_year (y + 1).
Proof.
  intros Hm Hd. pose proof (month_day_le y m d Hm Hd) as H.
  rewrite days_before_year_succ. unfold ymd2ord. lia.
Qed.

Lemma month_day_injective y m d m' d' :
  1 <= m <= 12 -> 1 <= d <= days_in_month y m ->
  1 <= m' <= 12 -> 1 <= d' <= days_in_month y m' ->
  days_before_month y m + d = days_before_month y m' + d' ->
  m = m' /\ d = d'.
Proof.
  intros Hm Hd Hm' Hd'. unfold days_before_month, days_in_month in *.
  assert (Hc : m = 1 \/ m = 2 \/ m = 3 \/ m = 4 \/ m = 5 \/ m = 6 \/
               m = 7 \/ m = 8 \/ m = 9 \/ m = 10 \/ m = 11 \/ m = 12) by lia.
  assert (Hc' : m' = 1 \/ m' = 2 \/ m' = 3 \/ m' = 4 \/ m' = 5 \/ m' = 6 \/
                m' = 7 \/ m' = 8 \/ m' = 9 \/ m' = 10 \/ m' = 11 \/ m' = 12) by lia.
  destruct (is_leap y);
    repeat (destruct Hc as [Hc|Hc]); subst m;
    repeat (destruct Hc' as [Hc'|Hc']); subst m';
    revert Hd Hd'; eval_tables; cbn -[Z.mul Z.add Z.sub]; lia.
Qed.

(** Two valid dates with the same ordinal are the same date. *)
Lemma ymd2ord_injective y m d y' m' d' :
  1 <= m <= 12 -> 1 <= d <= days_in_month y m ->
  1 <= m' <= 12 -> 1 <= d' <= days_in_month y' m' ->
  ymd2ord y m d = ymd2ord y' m' d' ->
  y = y' /\ m = m' /\ d = d'.
Proof.
  intros Hm Hd Hm' Hd' E.
  pose proof (ymd2ord_within_year y m d Hm Hd) as H.
  pose proof (ymd2ord_within_year y' m' d' Hm' Hd') as H'.
  assert (Hy : y = y').
  { destruct (Z.lt_trichotomy y y') as [Hlt|[Heq|Hgt]]; [|exact Heq|].
    - pose proof (days_before_year_mono (y + 1) y' ltac:(lia)). lia.
    - pose proof (days_before_year_mono (y' + 1) y ltac:(lia)). lia. }
  subst y'. split; [reflexivity|].
  apply (month_day_injective y); try assumption. unfold ymd2ord in E. lia.
Qed.

Lemma toordinal_injective a b :
  valid a -> valid b -> toordinal a = toordinal b ->
  year a = year b /\ month a = month b /\ day a = day b.
Proof.
  intros (_ & Hm & Hd & _) (_ & Hm' & Hd' & _) E.
  now apply ymd2ord_injective.
Qed.

End DatetimeFacts.

(* ===================================================================== *)
(** ** Lemmas: computations, the store and the cursor *)
(* ===================================================================== *)

Module MonadFacts.

Lemma try_reraise {S A} (body : M S A) (c : exc_class) (w : S) :
  try_ body [(c, reraise)] w = body w.
Proof.
  unfold try_. destruct (body w) as [[[a|e] w']|]; try reflexivity.
  simpl. destruct (isinstance e c); reflexivity.
Qed.

Lemma bind_return {S A B} (m : M S A) (k : A -> M S B) w a w' :
  m w = Some (Return a, w') -> bind m k w = k a w'.
Proof. intro H. unfold bind. now rewrite H. Qed.

Lemma bind_raise {S A B} (m : M S A) (k : A -> M S B) w e w' :
  m w = Some (Raise e, w') -> bind m k w = Some (Raise e, w').
Proof. intro H. unfold bind. now rewrite H. Qed.

End MonadFacts.
Import MonadFacts.

Module DbFacts.
Import DbUtils.

(** One more statement sent, nothing else moved. *)
Lemma execute_ok {A} env (stmt : Store -> A * Store) w :
  fault env (statements w) = None ->
  execute env stmt w
  = Some (Return (fst (stmt (db w))),
          mk_world (snd (stmt (db w))) (entropy_used w) (clock_reads w) (S (statements w))).
Proof.
  intro H. unfold execute. rewrite H. destruct (stmt (db w)); reflexivity.
Qed.

Lemma execute_fault {A} env (stmt : Store -> A * Store) w e :
  fault env (statements w) = Some e ->
  execute env stmt w
  = Some (Raise e, mk_world (db w) (entropy_used w) (clock_reads w) (S (statements w))).
Proof. intro H. unfold execute. now rewrite H. Qed.

Lemma get_or_create_space_hit env organization_id space_code space_name w r :
  fault env (statements w) = None ->
  fetchone (select_spaces_by_key organization_id space_code (db w)) = Some r ->
  get_or_create_space env organization_id space_code space_name w
  = Some (Return (Some r),
          mk_world (db w) (entropy_used w) (clock_reads w) (S (statements w))).
Proof.
  intros Hf Hr. unfold get_or_create_space. rewrite try_reraise.
  erewrite bind_return by (apply execute_ok; exact Hf).
  cbn [fst snd query]. rewrite Hr. reflexivity.
Qed.

Lemma get_or_create_participant_hit env fuel organization_id space participant_code
      participant_user_code participant_name w p :
  fault env (statements w) = None ->
  fetchone (select_participants_by_key organization_id (Space.id space)
              participant_code (db w)) = Some p ->
  get_or_create_participant env fuel organization_id space participant_code
    participant_user_code participant_name w
  = Some (Return (Some p),
          mk_world (db w) (entropy_used w) (clock_reads w) (S (statements w))).
Proof.
  intros Hf Hp. unfold get_or_create_participant. rewrite try_reraise.
  erewrite bind_return by (apply execute_ok; exact Hf).
  cbn [fst snd query]. rewrite Hp. reflexivity.
Qed.


Lemma filter_none {A} (f : A -> bool) (l : list A) :
  Forall (fun x => f x = false) l -> filter f l = [].
Proof.
  induction 1 as [|x l Hx _ IH]; simpl; [reflexivity|]. now rewrite Hx.
Qed.

Lemma select_spaces_by_id_fresh s organization_id space_code space_name :
  keys_below_counters s ->
  select_spaces_by_id (fst (insert_space organization_id space_code space_name s))
    (snd (insert_space organization_id space_code space_name s))
  = [Space.mk (spaces_auto_increment s) organization_id space_code space_name
       (default_open_result_days s)].
Proof.
  intros [Hs _]. unfold select_spaces_by_id, insert_space. cbn [fst snd spaces].
  rewrite filter_app, filter_none.
  - simpl. now rewrite Z.eqb_refl.
  - eapply Forall_impl; [|exact Hs]. intros r Hr. apply Z.eqb_neq. simpl in Hr. lia.
Qed.

Lemma select_participants_by_id_fresh s u o sp c uc nm rca :
  keys_below_counters s ->
  select_participants_by_id (fst (insert_participant u o sp c uc nm rca s))
    (snd (insert_participant u o sp c uc nm rca s))
  = [Participant.mk (participants_auto_increment s) u o sp c uc nm rca].
Proof.
  intros [_ Hp]. unfold select_participants_by_id, insert_participant.
  cbn [fst snd participants].
  rewrite filter_app, filter_none.
  - simpl. now rewrite Z.eqb_refl.
  - eapply Forall_impl; [|exact Hp]. intros r Hr. apply Z.eqb_neq. simpl in Hr. lia.
Qed.

Lemma fetchone_none {R} (rows : list R) : fetchone rows = None <-> rows = [].
Proof. destruct rows; simpl; split; congruence. Qed.

Lemma get_or_create_space_miss env organization_id space_code space_name w :
  (forall i, (statements w <= i < statements w + 3)%nat -> fault env i = None) ->
  fetchone (select_spaces_by_key organization_id space_code (db w)) = None ->
  get_or_create_space env organization_id space_code space_name w
  = let ins := insert_space organization_id space_code space_name (db w) in
    Some (Return (fetchone (select_spaces_by_id (fst ins) (snd ins))),
          mk_world (snd ins) (entropy_used w) (clock_reads w) (3 + statements w)).
Proof.
  intros Hf Hr. unfold get_or_create_space. rewrite try_reraise.
  erewrite bind_return by (apply execute_ok; apply Hf; lia).
  cbn [fst snd query]. rewrite Hr.
  erewrite bind_return by (apply execute_ok; apply Hf; simpl; lia).
  erewrite bind_return by (apply execute_ok; apply Hf; simpl; lia).
  reflexivity.
Qed.


Lemma world_eq s e c n e' c' n' :
  e = e' -> c = c' -> n = n' -> mk_world s e c n = mk_world s e' c' n'.
Proof. now intros -> -> ->. Qed.

(** Two runs with the same outcome and tables, up to arithmetic on the
    counters. *)
Ltac same_result :=
  match goal with
  | |- Some (?a, _) = Some (?a, _) =>
      apply (f_equal (fun x => Some (a, x))); apply world_eq; lia
  end.

Section Allocation.
Variable env : Env.
Variables (organization_id : Z) (space : Space.t).
Variables (participant_code participant_user_code participant_name : string).

Let body := allocate_and_insert env organization_id space participant_code
              participant_user_code participant_name.

Lemma allocate_collision w st :
  fault env (statements w) = None ->
  select_participants_by_uuid (candidate_after env w 0) (db w) <> [] ->
  body st w = Some (Return st, mk_world (db w) (S (entropy_used w)) (clock_reads w)
                                 (S (statements w))).
Proof.
  intros Hf Hc. unfold body, allocate_and_insert, candidate_after in *.
  rewrite Nat.add_0_r in Hc.
  unfold bind at 1. cbn [uuid4_hex].
  erewrite bind_return by (apply execute_ok; exact Hf).
  cbn [fst snd query db entropy_used clock_reads statements].
  destruct (select_participants_by_uuid _ (db w)) as [|x rows]; [congruence|].
  reflexivity.
Qed.

Lemma allocate_free w st rca :
  (forall i, (statements w <= i < statements w + 3)%nat -> fault env i = None) ->
  select_participants_by_uuid (candidate_after env w 0) (db w) = [] ->
  result_closed_at (now env (clock_reads w)) (Space.open_result_days space) = Return rca ->
  body st w
  = let ins := insert_participant (candidate_after env w 0) organization_id (Space.id space)
                 participant_code participant_user_code participant_name rca (db w) in
    Some (Return (false, fetchone (select_participants_by_id (fst ins) (snd ins))),
          mk_world (snd ins) (S (entropy_used w)) (S (clock_reads w)) (3 + statements w)).
Proof.
  intros Hf Hc Hrca. unfold body, allocate_and_insert, candidate_after in *.
  rewrite Nat.add_0_r in *.
  unfold bind at 1. cbn [uuid4_hex].
  erewrite bind_return by (apply execute_ok; apply Hf; simpl; lia).
  cbn [fst snd query db entropy_used clock_reads statements].
  rewrite Hc. cbn [fetchone hd_error].
  unfold bind at 1. cbn [datetime_now db entropy_used clock_reads statements].
  unfold bind at 1. unfold lift at 1. rewrite Hrca.
  erewrite bind_return by (apply execute_ok; apply Hf; simpl; lia).
  erewrite bind_return by (apply execute_ok; apply Hf; simpl; lia).
  reflexivity.
Qed.

Lemma while_allocates k : forall fuel w rca,
  (k < fuel)%nat ->
  (forall j, (j < k)%nat -> select_participants_by_uuid (candidate_after env w j) (db w) <> []) ->
  select_participants_by_uuid (candidate_after env w k) (db w) = [] ->
  (forall i, (statements w <= i < statements w + k + 3)%nat -> fault env i = None) ->
  result_closed_at (now env (clock_reads w)) (Space.open_result_days space) = Return rca ->
  while fuel fst body (true, None) w
  = let ins := insert_participant (candidate_after env w k) organization_id (Space.id space)
                 participant_code participant_user_code participant_name rca (db w) in
    Some (Return (false, fetchone (select_participants_by_id (fst ins) (snd ins))),
          mk_world (snd ins) (entropy_used w + k + 1) (S (clock_reads w))
                   (statements w + k + 3)).
Proof.
  induction k as [|k IH]; intros fuel w rca Hfuel Hcol Hfree Hf Hrca.
  - destruct fuel as [|fuel]; [lia|]. cbn [while fst].
    erewrite bind_return.
    2:{ apply allocate_free with (rca := rca); [|exact Hfree|exact Hrca].
        intros i Hi. apply Hf. lia. }
    cbv zeta. cbn [while fst].
    destruct fuel; cbn [while fst]; unfold ret; same_result.
  - destruct fuel as [|fuel]; [lia|]. cbn [while fst].
    erewrite bind_return.
    2:{ apply allocate_collision; [apply Hf; lia | apply Hcol; lia]. }
    set (w1 := mk_world (db w) (S (entropy_used w)) (clock_reads w) (S (statements w))).
    assert (Hcand : forall j, candidate_after env w1 j = candidate_after env w (S j)).
    { intro j. unfold candidate_after, w1. cbn [entropy_used]. f_equal. f_equal. lia. }
    rewrite (IH fuel w1 rca).
    + cbv zeta. rewrite Hcand. unfold w1. cbn [db entropy_used clock_reads statements].
      same_result.
    + lia.
    + intros j Hj. rewrite Hcand. apply Hcol. lia.
    + rewrite Hcand. exact Hfree.
    + intros i Hi. apply Hf. unfold w1 in Hi. cbn [statements] in Hi. lia.
    + exact Hrca.
Qed.

Lemma get_or_create_participant_miss k fuel w rca :
  (k < fuel)%nat ->
  fetchone (select_participants_by_key organization_id (Space.id space)
              participant_code (db w)) = None ->
  (forall j, (j < k)%nat -> select_participants_by_uuid (candidate_after env w j) (db w) <> []) ->
  select_participants_by_uuid (candidate_after env w k) (db w) = [] ->
  (forall i, (statements w <= i < statements w + k + 4)%nat -> fault env i = None) ->
  result_closed_at (now env (clock_reads w)) (Space.open_result_days space) = Return rca ->
  get_or_create_participant env fuel organization_id space participant_code
    participant_user_code participant_name w
  = let ins := insert_participant (candidate_after env w k) organization_id (Space.id space)
                 participant_code participant_user_code participant_name rca (db w) in
    Some (Return (fetchone (select_participants_by_id (fst ins) (snd ins))),
          mk_world (snd ins) (entropy_used w + k + 1) (S (clock_reads w))
                   (statements w + k + 4)).
Proof.
  intros Hfuel Hmiss Hcol Hfree Hf Hrca.
  unfold get_or_create_participant. rewrite try_reraise.
  erewrite bind_return by (apply execute_ok; apply Hf; lia).
  cbn [fst snd query]. rewrite Hmiss.
  set (w1 := mk_world (db w) (entropy_used w) (clock_reads w) (S (statements w))).
  erewrite bind_return.
  2:{ apply (while_allocates k fuel w1 rca); try assumption.
      intros i Hi. apply Hf. unfold w1 in Hi. cbn [statements] in Hi. lia. }
  cbv zeta. change (candidate_after env w1 k) with (candidate_after env w k).
  unfold ret, w1. cbn [snd db entropy_used clock_reads statements].
  same_result.
Qed.

End Allocation.

End DbFacts.

(* ===================================================================== *)
(** ** Lemmas: identifiers *)
(* ===================================================================== *)

Module UuidFacts.
Import Uuid.

Lemma bits_above n x i :
  0 <= x < 2 ^ n -> n <= i -> Z.testbit x i = false.
Proof.
  intros Hx Hi. destruct (Z.eq_dec x 0) as [->|Hx0]; [apply Z.bits_0|].
  apply Z.bits_above_log2; [lia|].
  assert (Z.log2 x < n) by (apply Z.log2_lt_pow2; lia). lia.
Qed.

Lemma below_of_bits n x :
  0 <= n -> 0 <= x -> (forall i, n <= i -> Z.testbit x i = false) -> 0 <= x < 2 ^ n.
Proof.
  intros Hn Hx Hbits.
  assert (E : x = x mod 2 ^ n).
  { apply Z.bits_inj'. intros i Hi. destruct (Z.lt_ge_cases i n).
    - now rewrite Z.mod_pow2_bits_low.
    - rewrite Z.mod_pow2_bits_high by lia. now apply Hbits. }
  rewrite E. apply Z.mod_pos_bound. apply Z.pow_pos_nonneg; lia.
Qed.

Lemma lor_below a b n :
  0 <= n -> 0 <= a < 2 ^ n -> 0 <= b < 2 ^ n -> 0 <= Z.lor a b < 2 ^ n.
Proof.
  intros Hn Ha Hb. apply below_of_bits; [lia | apply Z.lor_nonneg; lia |].
  intros i Hi. rewrite Z.lor_spec, (bits_above n a), (bits_above n b) by lia. reflexivity.
Qed.

Lemma land_below a b n :
  0 <= n -> 0 <= a < 2 ^ n -> 0 <= Z.land a b < 2 ^ n.
Proof.
  intros Hn Ha. apply below_of_bits; [lia | apply Z.land_nonneg; lia |].
  intros i Hi. rewrite Z.land_spec, (bits_above n a) by lia. reflexivity.
Qed.

Lemma UUID_int_range n : 0 <= n < 2 ^ 128 -> 0 <= UUID_int n 4 < 2 ^ 128.
Proof.
  intro Hn. unfold UUID_int. cbv zeta.
  apply lor_below; [lia | | now vm_compute].
  apply land_below; [lia|].
  apply lor_below; [lia | | now vm_compute].
  apply land_below; [lia|]. exact Hn.
Qed.

Lemma all_chars_append p a b :
  all_chars p (a +++ b) = all_chars p a && all_chars p b.
Proof. induction a as [|c a IH]; simpl; [reflexivity|]. now rewrite IH, andb_assoc. Qed.

Lemma hex_char_digit d : 0 <= d < 16 -> hex_value (hex_char d) = Some d.
Proof.
  intro H.
  assert (Hc : d = 0 \/ d = 1 \/ d = 2 \/ d = 3 \/ d = 4 \/ d = 5 \/ d = 6 \/ d = 7 \/
               d = 8 \/ d = 9 \/ d = 10 \/ d = 11 \/ d = 12 \/ d = 13 \/ d = 14 \/ d = 15)
    by lia.
  repeat (destruct Hc as [Hc|Hc]); subst d; reflexivity.
Qed.

Lemma fixed_hex_digits width n :
  all_chars is_hex_digit (fixed_digits hex_char 16 width n) = true.
Proof.
  revert n; induction width as [|w IH]; intro n; simpl; [reflexivity|].
  rewrite all_chars_append, IH. simpl. unfold is_hex_digit.
  rewrite hex_char_digit by (apply Z.mod_pos_bound; lia). reflexivity.
Qed.

Lemma int_of_hex_from_append acc a b :
  int_of_hex_from acc (a +++ b)
  = match int_of_hex_from acc a with
    | Some x => int_of_hex_from x b
    | None => None
    end.
Proof.
  revert acc; induction a as [|c a IH]; intro acc; simpl; [reflexivity|].
  destruct (hex_value c); [apply IH | reflexivity].
Qed.

Lemma int_of_fixed_hex width : forall n acc,
  int_of_hex_from acc (fixed_digits hex_char 16 width n)
  = Some (acc * 16 ^ Z.of_nat width + n mod 16 ^ Z.of_nat width).
Proof.
  induction width as [|w IH]; intros n acc.
  - simpl. rewrite Z.mod_1_r. f_equal. lia.
  - cbn [fixed_digits]. rewrite int_of_hex_from_append, IH. cbn [int_of_hex_from].
    rewrite hex_char_digit by (apply Z.mod_pos_bound; lia).
    f_equal. rewrite Nat2Z.inj_succ, Z.pow_succ_r by lia.
    assert (Hp : 0 < 16 ^ Z.of_nat w) by (apply Z.pow_pos_nonneg; lia).
    rewrite Z.rem_mul_r by lia. ring.
Qed.

Lemma hex_spec n :
  0 <= n < 2 ^ 128 ->
  String.length (hex n) = 32%nat /\
  all_chars is_hex_digit (hex n) = true /\
  int_of_hex (hex n) = Some n.
Proof.
  intro Hn. unfold hex, format_0Nx.
  change (16 ^ Z.of_nat 32) with (2 ^ 128).
  destruct (Z.ltb_spec n (2 ^ 128)); [|lia].
  split; [apply length_fixed_digits|]. split; [apply fixed_hex_digits|].
  unfold int_of_hex. rewrite int_of_fixed_hex.
  change (16 ^ Z.of_nat 32) with (2 ^ 128).
  rewrite Z.mod_small by lia. reflexivity.
Qed.

Lemma masks_clear_low :
  forallb (fun k => forced_bit (Z.of_nat k) || masks_clear (Z.of_nat k)) (seq 0 128) = true.
Proof. vm_compute. reflexivity. Qed.

Lemma masks_clear_spec i : 0 <= i -> forced_bit i = false -> masks_clear i = true.
Proof.
  intros Hi Hf. destruct (Z.lt_ge_cases i 128) as [Hlt|Hge].
  - pose proof masks_clear_low as H. rewrite forallb_forall in H.
    specialize (H (Z.to_nat i)). rewrite Z2Nat.id in H by lia.
    rewrite Hf in H. apply H. apply in_seq. lia.
  - unfold masks_clear.
    rewrite !(bits_above 128) by first [lia | split; now vm_compute].
    reflexivity.
Qed.

(** Every other bit is the bit of the random bytes. *)
Lemma UUID_int_keeps_bit n i :
  0 <= i -> forced_bit i = false -> Z.testbit (UUID_int n 4) i = Z.testbit n i.
Proof.
  intros Hi Hf. pose proof (masks_clear_spec i Hi Hf) as Hm.
  unfold masks_clear in Hm. rewrite !andb_true_iff, !negb_true_iff in Hm.
  destruct Hm as [[[H1 H2] H3] H4].
  unfold UUID_int. cbv zeta.
  rewrite Z.lor_spec, Z.land_spec, Z.lor_spec, Z.land_spec, !Z.lnot_spec by lia.
  rewrite H1, H2, H3, H4. cbn [negb]. now rewrite !andb_true_r, !orb_false_r.
Qed.

(** An identifier [uuid4().hex] returns: 32 lowercase hexadecimal digits, the
    128 bits of a version-4 UUID. *)
Lemma uuid4_hex_spec random :
  let value := UUID_int (random mod 2 ^ 128) 4 in
  0 <= value < 2 ^ 128 /\
  String.length (uuid4_hex random) = 32%nat /\
  all_chars is_hex_digit (uuid4_hex random) = true /\
  int_of_hex (uuid4_hex random) = Some value.
Proof.
  intro value.
  assert (Hv : 0 <= value < 2 ^ 128)
    by (apply UUID_int_range; apply Z.mod_pos_bound; lia).
  split; [exact Hv|]. apply hex_spec; exact Hv.
Qed.

End UuidFacts.

(* ===================================================================== *)
(** ** Lemmas: what a run of get_or_create_participant can do *)
(* ===================================================================== *)

Import Monad Db DbUtils MonadFacts DbFacts.

Module RaiseFacts.

Lemma result_closed_at_raises t d e :
  result_closed_at t d = Raise e -> exn_class e = OverflowError.
Proof.
  unfold result_closed_at, Datetime.datetime_add, Datetime.timedelta_add,
    Datetime.new_timedelta.
  repeat match goal with
         | |- context [if ?c then _ else _] => destruct c
         | |- context [let '(_, _) := ?x in _] => destruct x as [[? ?] ?]
         end; cbn; intros [= <-]; reflexivity.
Qed.

(** The run ended in the exception at hand. *)
Ltac raised :=
  let H := fresh in
  intro H; injection H as H _;
  first [rewrite <- H | subst].

(** Case analysis on the step a run is waiting for. *)
Ltac next_step pat E :=
  match goal with
  | |- match ?x with _ => _ end = _ -> _ => destruct x as pat eqn:E
  end.

Lemma execute_raises {A} env (stmt : Store -> A * Store) w e w' :
  execute env stmt w = Some (Raise e, w') -> fault env (statements w) = Some e.
Proof.
  unfold execute. destruct (fault env (statements w)) as [e0|].
  - raised. reflexivity.
  - destruct (stmt (db w)). discriminate.
Qed.

Section Raises.
Variable env : Env.
Variables (organization_id : Z) (space : Space.t).
Variables (participant_code participant_user_code participant_name : string).

Lemma allocate_raises st w e w' :
  allocate_and_insert env organization_id space participant_code participant_user_code
    participant_name st w = Some (Raise e, w') ->
  from_date_or_store env e.
Proof.
  unfold allocate_and_insert, from_date_or_store.
  unfold bind at 1. cbn [uuid4_hex].
  unfold bind at 1.
  next_step ipattern:([[[rows|e0] w1]|]) E1; [| |discriminate].
  2:{ raised. right. eexists. eapply execute_raises. exact E1. }
  destruct (fetchone rows); [unfold ret; discriminate|].
  unfold bind at 1. cbn [datetime_now].
  unfold bind at 1. unfold lift at 1.
  destruct (result_closed_at _ _) as [rca|e0] eqn:E2.
  2:{ raised. left. eapply result_closed_at_raises. exact E2. }
  unfold bind at 1.
  next_step ipattern:([[[pid|e0] w2]|]) E3; [| |discriminate].
  2:{ raised. right. eexists. eapply execute_raises. exact E3. }
  unfold bind at 1.
  next_step ipattern:([[[rows2|e0] w3]|]) E4; [| |discriminate].
  2:{ raised. right. eexists. eapply execute_raises. exact E4. }
  unfold ret. discriminate.
Qed.

Lemma while_raises fuel : forall st w e w',
  while fuel fst
    (allocate_and_insert env organization_id space participant_code participant_user_code
       participant_name) st w = Some (Raise e, w') ->
  from_date_or_store env e.
Proof.
  induction fuel as [|fuel IH]; intros st w e w'; cbn [while].
  - destruct (fst st); [unfold diverge | unfold ret]; discriminate.
  - destruct (fst st); [|unfold ret; discriminate].
    unfold bind.
    destruct (allocate_and_insert _ _ _ _ _ _ st w) as [[[st1|e0] w1]|] eqn:E;
      [| |discriminate].
    + apply IH.
    + raised. eapply allocate_raises. exact E.
Qed.

Lemma get_or_create_participant_raises fuel w e w' :
  get_or_create_participant env fuel organization_id space participant_code
    participant_user_code participant_name w = Some (Raise e, w') ->
  from_date_or_store env e.
Proof.
  unfold get_or_create_participant. rewrite try_reraise.
  unfold bind at 1.
  next_step ipattern:([[[rows|e0] w1]|]) E1; [| |discriminate].
  2:{ raised. right. eexists. eapply execute_raises. exact E1. }
  destruct (fetchone rows); [unfold ret; discriminate|].
  unfold bind at 1.
  next_step ipattern:([[[st|e0] w2]|]) E2; [| |discriminate].
  - unfold ret. discriminate.
  - raised. eapply while_raises. exact E2.
Qed.

End Raises.

End RaiseFacts.

Section Creation.
Variable env : Env.
Variables (organization_id : Z) (space : Space.t).
Variables (participant_code participant_user_code participant_name : string).

(** The miss path of get_or_create_participant, in the terms of the
    lookups the code makes: the first [k] candidates are found, the next is
    not. *)
Lemma participant_created k fuel w rca :
  (k < fuel)%nat ->
  fetchone (select_participants_by_key organization_id (Space.id space)
              participant_code (db w)) = None ->
  (forall j, (j < k)%nat ->
     fetchone (select_participants_by_uuid (candidate_after env w j) (db w)) <> None) ->
  fetchone (select_participants_by_uuid (candidate_after env w k) (db w)) = None ->
  (forall i, (statements w <= i < statements w + k + 4)%nat -> fault env i = None) ->
  result_closed_at (now env (clock_reads w)) (Space.open_result_days space) = Return rca ->
  let lastrowid := participants_auto_increment (db w) in
  let row := Participant.mk lastrowid (candidate_after env w k) organization_id
               (Space.id space) participant_code participant_user_code
               participant_name rca in
  exists w',
    get_or_create_participant env fuel organization_id space participant_code
      participant_user_code participant_name w
    = Some (Return (fetchone (select_participants_by_id lastrowid (db w'))), w') /\
    participants (db w') = participants (db w) ++ [row] /\
    entropy_used w' = (entropy_used w + k + 1)%nat /\
    clock_reads w' = S (clock_reads w) /\
    statements w' = (statements w + k + 4)%nat /\
    (keys_below_counters (db w) ->
     fetchone (select_participants_by_id lastrowid (db w')) = Some row).
Proof.
  intros Hfuel Hmiss Hcol Hfree Hf Hrca lastrowid row.
  exists (mk_world
            (snd (insert_participant (candidate_after env w k) organization_id
                    (Space.id space) participant_code participant_user_code
                    participant_name rca (db w)))
            (entropy_used w + k + 1) (S (clock_reads w)) (statements w + k + 4)).
  split.
  - rewrite (get_or_create_participant_miss env organization_id space participant_code
               participant_user_code participant_name k fuel w rca); try assumption.
    + reflexivity.
    + intros j Hj. specialize (Hcol j Hj). rewrite fetchone_none in Hcol. exact Hcol.
    + now apply fetchone_none.
  - repeat split.
    intro Hkeys. cbn [db].
    change lastrowid
      with (fst (insert_participant (candidate_after env w k) organization_id
                   (Space.id space) participant_code participant_user_code
                   participant_name rca (db w))).
    rewrite select_participants_by_id_fresh by assumption. reflexivity.
Qed.

End Creation.


(* ===================================================================== *)
(** ** Lemmas: the keys of the store stay below the counters *)
(* ===================================================================== *)

Module Invariant.

Section Preservation.
Variable env : Env.
Variable P : Store -> Prop.

Lemma preserves_ret {A} (a : A) : preserves P (ret a).
Proof. intros w o w' [= _ <-]. auto. Qed.

Lemma preserves_lift {A} (o : outcome A) : preserves P (lift o).
Proof. intros w o' w' [= _ <-]. auto. Qed.

Lemma preserves_raise {A} (e : exn) : preserves P (@raise World A e).
Proof. intros w o w' [= _ <-]. auto. Qed.

Lemma preserves_bind {A B} (m : M World A) (k : A -> M World B) :
  preserves P m -> (forall a, preserves P (k a)) -> preserves P (bind m k).
Proof.
  intros Hm Hk w o w'. unfold bind.
  destruct (m w) as [[[a|e] w1]|] eqn:E; [| |discriminate].
  - intros Hrun Hw. eapply Hk; [exact Hrun|]. eapply Hm; eauto.
  - intros [= _ <-] Hw. eapply Hm; eauto.
Qed.

Lemma preserves_try_reraise {A} (m : M World A) c :
  preserves P m -> preserves P (try_ m [(c, reraise)]).
Proof. intros Hm w o w'. rewrite try_reraise. apply Hm. Qed.

Lemma preserves_while {St} fuel (cond : St -> bool) (body : St -> M World St) :
  (forall st, preserves P (body st)) -> forall st, preserves P (while fuel cond body st).
Proof.
  intro Hbody. induction fuel as [|fuel IH]; intro st; cbn [while].
  - destruct (cond st); [intros w o w'; discriminate | apply preserves_ret].
  - destruct (cond st); [|apply preserves_ret].
    apply preserves_bind; [apply Hbody | exact IH].
Qed.

Lemma preserves_execute {A} (stmt : Store -> A * Store) :
  (forall s, P s -> P (snd (stmt s))) -> preserves P (execute env stmt).
Proof.
  intros Hstmt w o w'. unfold execute.
  destruct (fault env (statements w)).
  - intros [= _ <-]. auto.
  - destruct (stmt (db w)) as [a s'] eqn:E. intros [= _ <-] Hw. cbn [db].
    specialize (Hstmt (db w) Hw). now rewrite E in Hstmt.
Qed.

Lemma preserves_query {A} (q : Store -> A) : preserves P (execute env (query q)).
Proof. apply preserves_execute. auto. Qed.

Lemma preserves_uuid4_hex : preserves P (uuid4_hex env).
Proof. intros w o w' [= _ <-]. auto. Qed.

Lemma preserves_datetime_now : preserves P (datetime_now env).
Proof. intros w o w' [= _ <-]. auto. Qed.

End Preservation.

Lemma insert_space_keeps_keys organization_id space_code space_name s :
  keys_below_counters s ->
  keys_below_counters (snd (insert_space organization_id space_code space_name s)).
Proof.
  intros [Hs Hp]. split; cbn [insert_space snd spaces spaces_auto_increment
                                 participants participants_auto_increment]; [|exact Hp].
  apply Forall_app. split.
  - eapply Forall_impl; [|exact Hs]. cbn beta. intros r Hr. lia.
  - constructor; [cbn; lia | constructor].
Qed.

Lemma insert_participant_keeps_keys u o sp c uc nm rca s :
  keys_below_counters s ->
  keys_below_counters (snd (insert_participant u o sp c uc nm rca s)).
Proof.
  intros [Hs Hp]. split; cbn [insert_participant snd spaces spaces_auto_increment
                                 participants participants_auto_increment]; [exact Hs|].
  apply Forall_app. split.
  - eapply Forall_impl; [|exact Hp]. cbn beta. intros r Hr. lia.
  - constructor; [cbn; lia | constructor].
Qed.

Lemma insert_face_auth_log_keeps_keys row s :
  keys_below_counters s -> keys_below_counters (snd (insert_face_auth_log row s)).
Proof. intros [Hs Hp]. split; assumption. Qed.

Create HintDb keys.

Section Functions.
Variable env : Env.

Local Hint Resolve preserves_ret preserves_lift preserves_raise preserves_query
  preserves_uuid4_hex preserves_datetime_now : keys.

Theorem get_organization_app_keeps_keys uuid :
  preserves keys_below_counters (get_organization_app env uuid).
Proof.
  unfold get_organization_app. apply preserves_try_reraise.
  apply preserves_bind; auto with keys.
Qed.

Theorem get_or_create_space_keeps_keys organization_id space_code space_name :
  preserves keys_below_counters
    (get_or_create_space env organization_id space_code space_name).
Proof.
  unfold get_or_create_space. apply preserves_try_reraise.
  apply preserves_bind; [auto with keys|]. intros rows.
  destruct (fetchone rows); [auto with keys|].
  apply preserves_bind.
  - apply preserves_execute. intros s. apply insert_space_keeps_keys.
  - intro id. apply preserves_bind; auto with keys.
Qed.

Theorem get_or_create_participant_keeps_keys fuel organization_id space participant_code
        participant_user_code participant_name :
  preserves keys_below_counters
    (get_or_create_participant env fuel organization_id space participant_code
       participant_user_code participant_name).
Proof.
  unfold get_or_create_participant. apply preserves_try_reraise.
  apply preserves_bind; [auto with keys|]. intros rows.
  destruct (fetchone rows); [auto with keys|].
  apply preserves_bind; [|auto with keys].
  apply preserves_while. intro st. unfold allocate_and_insert.
  apply preserves_bind; [auto with keys|]. intro u.
  apply preserves_bind; [auto with keys|]. intro found.
  destruct (fetchone found); [auto with keys|].
  apply preserves_bind; [auto with keys|]. intro t.
  apply preserves_bind; [auto with keys|]. intro rca.
  apply preserves_bind.
  - apply preserves_execute. intros s. apply insert_participant_keeps_keys.
  - intro id. apply preserves_bind; auto with keys.
Qed.

Theorem create_face_auth_log_keeps_keys organization_id space_id participant_id
        authentication_code is_authenticated reason logs threshold :
  preserves keys_below_counters
    (create_face_auth_log env organization_id space_id participant_id authentication_code
       is_authenticated reason logs threshold).
Proof.
  unfold create_face_auth_log. apply preserves_bind; [|auto with keys].
  apply preserves_try_reraise.
  apply preserves_bind; [auto with keys|]. intro rj.
  apply preserves_bind; [auto with keys|]. intro lj.
  apply preserves_execute. intros s. apply insert_face_auth_log_keeps_keys.
Qed.

End Functions.

End Invariant.

(* ===================================================================== *)
(** ** Lemmas: a created record is the one found next time *)
(* ===================================================================== *)

Module Resolution.

Lemma select_spaces_by_key_created organization_id space_code space_name s :
  select_spaces_by_key organization_id space_code s = [] ->
  select_spaces_by_key organization_id space_code
    (snd (insert_space organization_id space_code space_name s))
  = [Space.mk (spaces_auto_increment s) organization_id space_code space_name
       (default_open_result_days s)].
Proof.
  intro Hmiss. unfold select_spaces_by_key in *. cbn [insert_space snd spaces].
  rewrite filter_app, Hmiss. cbn. now rewrite Z.eqb_refl, String.eqb_refl.
Qed.

Lemma select_participants_by_key_created u organization_id space_id participant_code uc nm
      rca s :
  select_participants_by_key organization_id space_id participant_code s = [] ->
  select_participants_by_key organization_id space_id participant_code
    (snd (insert_participant u organization_id space_id participant_code uc nm rca s))
  = [Participant.mk (participants_auto_increment s) u organization_id space_id
       participant_code uc nm rca].
Proof.
  intro Hmiss. unfold select_participants_by_key in *.
  cbn [insert_participant snd participants].
  rewrite filter_app, Hmiss. cbn. now rewrite !Z.eqb_refl, String.eqb_refl.
Qed.

(** First call creates, second call finds: the same record, the first
    name, no second insert. *)
Theorem get_or_create_space_twice env w organization_id space_code space_name1 space_name2 :
  keys_below_counters (db w) ->
  fetchone (select_spaces_by_key organization_id space_code (db w)) = None ->
  (forall i, (statements w <= i < statements w + 4)%nat -> fault env i = None) ->
  let row := Space.mk (spaces_auto_increment (db w)) organization_id space_code space_name1
               (default_open_result_days (db w)) in
  exists w1,
    get_or_create_space env organization_id space_code space_name1 w
    = Some (Return (Some row), w1) /\
    get_or_create_space env organization_id space_code space_name2 w1
    = Some (Return (Some row), one_statement_later w1) /\
    spaces (db w1) = spaces (db w) ++ [row].
Proof.
  intros Hkeys Hmiss Hf row.
  exists (mk_world (snd (insert_space organization_id space_code space_name1 (db w)))
            (entropy_used w) (clock_reads w) (3 + statements w)).
  split; [|split; [|reflexivity]].
  - rewrite get_or_create_space_miss; [|intros i Hi; apply Hf; lia|exact Hmiss].
    cbv zeta. now rewrite select_spaces_by_id_fresh.
  - apply get_or_create_space_hit; [apply Hf; cbn [statements]; lia|].
    cbn [db]. apply fetchone_none in Hmiss.
    now rewrite select_spaces_by_key_created.
Qed.

Theorem get_or_create_participant_twice env w fuel1 fuel2 k organization_id space
        participant_code user_code1 name1 user_code2 name2 rca :
  keys_below_counters (db w) ->
  (k < fuel1)%nat ->
  fetchone (select_participants_by_key organization_id (Space.id space)
              participant_code (db w)) = None ->
  (forall j, (j < k)%nat ->
     fetchone (select_participants_by_uuid (candidate_after env w j) (db w)) <> None) ->
  fetchone (select_participants_by_uuid (candidate_after env w k) (db w)) = None ->
  (forall i, (statements w <= i < statements w + k + 5)%nat -> fault env i = None) ->
  result_closed_at (now env (clock_reads w)) (Space.open_result_days space) = Return rca ->
  let row := Participant.mk (participants_auto_increment (db w)) (candidate_after env w k)
               organization_id (Space.id space) participant_code user_code1 name1 rca in
  exists w1,
    get_or_create_participant env fuel1 organization_id space participant_code
      user_code1 name1 w = Some (Return (Some row), w1) /\
    get_or_create_participant env fuel2 organization_id space participant_code
      user_code2 name2 w1 = Some (Return (Some row), one_statement_later w1) /\
    participants (db w1) = participants (db w) ++ [row].
Proof.
  intros Hkeys Hfuel Hmiss Hcol Hfree Hf Hrca row.
  exists (mk_world
            (snd (insert_participant (candidate_after env w k) organization_id
                    (Space.id space) participant_code user_code1 name1 rca (db w)))
            (entropy_used w + k + 1) (S (clock_reads w)) (statements w + k + 4)).
  split; [|split; [|reflexivity]].
  - rewrite (get_or_create_participant_miss env organization_id space participant_code
               user_code1 name1 k fuel1 w rca); try assumption.
    + cbv zeta. now rewrite select_participants_by_id_fresh.
    + intros j Hj. specialize (Hcol j Hj). now rewrite fetchone_none in Hcol.
    + now apply fetchone_none.
    + intros i Hi. apply Hf. lia.
  - apply get_or_create_participant_hit; [apply Hf; cbn [statements]; lia|].
    cbn [db]. apply fetchone_none in Hmiss.
    now rewrite select_participants_by_key_created.
Qed.

(** The scenario of the specification: organization 42, space code S1. *)
Example space_one_then_renamed :
  exists w1,
    get_or_create_space Scenario.env 42 "S1" "Space One" Scenario.empty_world
    = Some (Return (Some (Space.mk 1 42 "S1" "Space One" 7)), w1) /\
    option_map fst (get_or_create_space Scenario.env 42 "S1" "Renamed" w1)
    = Some (Return (Some (Space.mk 1 42 "S1" "Space One" 7))).
Proof. eexists. split; reflexivity. Qed.

End Resolution.

(* ===================================================================== *)
(** ** Lemmas: the text of the closing date *)
(* ===================================================================== *)

Module ClosingDate.
Import Datetime DatetimeFacts.

Lemma days_in_month_le y m : 1 <= m <= 12 -> 28 <= days_in_month y m <= 31.
Proof.
  intro Hm. unfold days_in_month.
  assert (Hcases : m = 1 \/ m = 2 \/ m = 3 \/ m = 4 \/ m = 5 \/ m = 6 \/
                   m = 7 \/ m = 8 \/ m = 9 \/ m = 10 \/ m = 11 \/ m = 12) by lia.
  repeat (destruct Hcases as [Hcases|Hcases]); subst m;
    destruct (is_leap y); eval_tables; cbn -[Z.mul Z.add Z.sub]; lia.
Qed.

(** The text of a valid datetime in the format of db_utils.py has the 26
    characters of YYYY-MM-DD HH:MM:SS.ffffff. *)
Lemma strftime_length t :
  valid t -> String.length (strftime t "%Y-%m-%d %H:%M:%S.%f") = 26%nat.
Proof.
  intros (Hy & Hm & Hd & Hh & Hmi & Hs & Hus).
  pose proof (days_in_month_le (year t) (month t) Hm) as Hdim.
  unfold MINYEAR, MAXYEAR in Hy.
  rewrite strftime_format.
  repeat (rewrite length_append; cbn [String.length]).
  rewrite !length_format_0Nd by (cbn; lia). reflexivity.
Qed.

(** Lines 125-126 on a valid clock reading whose shifted day is a day of the
    calendar. *)
Lemma result_closed_at_spec t d :
  valid t -> 0 < toordinal t + d <= MAXORDINAL ->
  exists closed,
    result_closed_at t d = Return (strftime closed "%Y-%m-%d %H:%M:%S.%f") /\
    valid closed /\
    toordinal closed = toordinal t + d /\
    hour closed = hour t /\ minute closed = minute t /\
    second closed = second t /\ microsecond closed = microsecond t.
Proof.
  intros Hv Hd.
  pose proof (toordinal_bounds t Hv) as Ho.
  destruct (ord2ymd_spec (toordinal t + d) ltac:(lia))
    as (y & m & dd & E & Hord & Hy1 & Hy2 & Hm & Hdd).
  destruct (datetime_add_days t d Hv Hd) as (y' & m' & dd' & E' & Hadd).
  rewrite E in E'. injection E' as <- <- <-.
  exists (mk_datetime y m dd (hour t) (minute t) (second t) (microsecond t)).
  split.
  - unfold result_closed_at. rewrite new_timedelta_days by (unfold MAXORDINAL in *; lia).
    rewrite Hadd. reflexivity.
  - destruct Hv as (_ & _ & _ & Hh & Hmi & Hs & Hus).
    unfold valid, toordinal. cbn [year month day hour minute second microsecond].
    unfold MINYEAR. repeat split; try lia; try tauto.
Qed.

End ClosingDate.

(* ===================================================================== *)
(** ** Lemmas: the runs of create_face_auth_log *)
(* ===================================================================== *)

Section FaceAuthLog.
Variable env : Env.
Variables (organization_id space_id participant_id : Z) (authentication_code : string).
Variables (is_authenticated : bool) (reason logs : pyvalue) (threshold : string).

Let run := create_face_auth_log env organization_id space_id participant_id
             authentication_code is_authenticated reason logs threshold.

Let row (reason_json logs_json : string) : FaceAuthLog.t :=
  FaceAuthLog.mk authentication_code organization_id space_id participant_id
    is_authenticated reason_json logs_json threshold.

(** Every run of create_face_auth_log, by what json.dumps and the server
    do. *)
Lemma create_face_auth_log_runs w :
  run w =
  match Json.dumps reason with
  | Raise e => Some (Raise e, w)
  | Return reason_json =>
      match Json.dumps logs with
      | Raise e => Some (Raise e, w)
      | Return logs_json =>
          match fault env (statements w) with
          | Some e => Some (Raise e, one_statement_later w)
          | None =>
              Some (Return true,
                    mk_world (snd (insert_face_auth_log (row reason_json logs_json) (db w)))
                      (entropy_used w) (clock_reads w) (S (statements w)))
          end
      end
  end.
Proof.
  unfold run, create_face_auth_log, row. unfold bind at 1. rewrite try_reraise.
  unfold bind at 1. unfold lift at 1.
  destruct (Json.dumps reason) as [rj|e]; [|reflexivity].
  unfold bind at 1. unfold lift at 1.
  destruct (Json.dumps logs) as [lj|e]; [|reflexivity].
  unfold execute. destruct (fault env (statements w)); reflexivity.
Qed.

End FaceAuthLog.

(* ===================================================================== *)
(** ** Lemmas: hyphens and lookups *)
(* ===================================================================== *)

Module StrFacts.

Lemma prefix_empty s : String.prefix "" s = true.
Proof. destruct s; reflexivity. Qed.

(** [uuid.replace('-', '')] removes every hyphen and nothing else. *)
Lemma replace_hyphens s : str_replace s "-" "" = strip "-" s.
Proof.
  unfold str_replace. induction s as [|c s IH]; [reflexivity|].
  cbn [replace_from strip String.prefix String.length Nat.pred].
  destruct (ascii_dec "-" c) as [<-|Hne].
  - rewrite prefix_empty. cbn [Ascii.eqb Bool.eqb String.append]. exact IH.
  - destruct (Ascii.eqb_spec c "-") as [->|_]; [congruence|].
    now rewrite IH.
Qed.

Lemma strip_has_none sep s :
  Uuid.all_chars (fun c => negb (Ascii.eqb c sep)) (strip sep s) = true.
Proof.
  induction s as [|c s IH]; [reflexivity|]. cbn [strip].
  destruct (Ascii.eqb c sep) eqn:E; [exact IH|].
  cbn [Uuid.all_chars]. now rewrite E, IH.
Qed.

(** An identifier without separators is looked up as it is. *)
Lemma strip_without sep s :
  Uuid.all_chars (fun c => negb (Ascii.eqb c sep)) s = true -> strip sep s = s.
Proof.
  induction s as [|c s IH]; [reflexivity|]. cbn [Uuid.all_chars strip].
  rewrite andb_true_iff, negb_true_iff. intros [-> H]. now rewrite IH.
Qed.

End StrFacts.

Lemma fetchone_in {R} (rows : list R) (r : R) : fetchone rows = Some r -> In r rows.
Proof. destruct rows; simpl; [discriminate|]. intros [= ->]. now left. Qed.

(* ===================================================================== *)
(** ** The properties of the specification *)
(* ===================================================================== *)






(** C3. Identifier allocation. Each candidate is uuid4().hex of 16 random
    bytes: a 128-bit value (the random bits, but for the six bits of variant
    and version that uuid4 forces) written as 32 hexadecimal digits with no
    separator. The candidate is looked up in the uuid column of the
    participants; generation repeats as long as the lookup finds a row; and
    the uuid of the row that is inserted is the first candidate whose lookup
    returned None. *)
Theorem C3_inserted_uuid_is_first_absent_candidate :
  forall env w fuel k organization_id space participant_code participant_user_code
         participant_name rca,
    (k < fuel)%nat ->
    fetchone (select_participants_by_key organization_id (Space.id space)
                participant_code (db w)) = None ->
    (forall j, (j < k)%nat ->
       fetchone (select_participants_by_uuid (candidate_after env w j) (db w)) <> None) ->
    fetchone (select_participants_by_uuid (candidate_after env w k) (db w)) = None ->
    (forall i, (statements w <= i < statements w + k + 4)%nat -> fault env i = None) ->
    result_closed_at (now env (clock_reads w)) (Space.open_result_days space) = Return rca ->
    let random := urandom env (entropy_used w + k) mod 2 ^ 128 in
    let value := Uuid.UUID_int random 4 in
    let uuid := candidate_after env w k in
    exists participant w',
      get_or_create_participant env fuel organization_id space participant_code
        participant_user_code participant_name w = Some (Return participant, w') /\
      participants (db w')
      = participants (db w)
        ++ [Participant.mk (participants_auto_increment (db w)) uuid organization_id
              (Space.id space) participant_code participant_user_code participant_name
              rca] /\
      entropy_used w' = (entropy_used w + k + 1)%nat /\
      (forall r, In r (participants (db w)) -> Participant.uuid r <> uuid) /\
      uuid = Uuid.hex value /\
      0 <= value < 2 ^ 128 /\
      (forall i, 0 <= i -> Uuid.forced_bit i = false ->
                 Z.testbit value i = Z.testbit random i) /\
      String.length uuid = 32%nat /\
      Uuid.all_chars Uuid.is_hex_digit uuid = true /\
      Uuid.int_of_hex uuid = Some value.
Proof.
  intros env w fuel k organization_id space participant_code participant_user_code
         participant_name rca Hfuel Hmiss Hcol Hfree Hf Hrca random value uuid.
  destruct (participant_created env organization_id space participant_code
              participant_user_code participant_name k fuel w rca
              Hfuel Hmiss Hcol Hfree Hf Hrca) as (w' & Hrun & Hrows & Hent & _).
  destruct (UuidFacts.uuid4_hex_spec (urandom env (entropy_used w + k)))
    as (Hrange & Hlen & Hhex & Hint).
  eexists. exists w'.
  split; [exact Hrun|]. split; [exact Hrows|]. split; [exact Hent|].
  split.
  { intros r Hr Heq. apply fetchone_none in Hfree.
    assert (Hin : In r (select_participants_by_uuid uuid (db w))).
    { unfold select_participants_by_uuid. apply filter_In. split; [exact Hr|].
      now apply String.eqb_eq. }
    unfold uuid in Hin. rewrite Hfree in Hin. exact Hin. }
  split; [reflexivity|]. split; [exact Hrange|].
  split; [intros i Hi Hb; now apply UuidFacts.UUID_int_keeps_bit|].
  split; [exact Hlen|]. split; [exact Hhex | exact Hint].
Qed.

Lemma C3_witness_twelfth_identifier :
  exists participant w',
    get_or_create_participant Scenario.env 12 42 Scenario.space_one "P1" "U1" "Alice"
      Scenario.crowded_world = Some (Return participant, w') /\
    participants (db w') = Scenario.holders 11 ++ [Scenario.newcomer] /\
    entropy_used w' = 12%nat /\
    (forall r, In r (Scenario.holders 11) ->
               Participant.uuid r <> "0000000000004000800000000000000b") /\
    "0000000000004000800000000000000b" = Uuid.hex (Uuid.UUID_int 11 4) /\
    0 <= Uuid.UUID_int 11 4 < 2 ^ 128 /\
    (forall i, 0 <= i -> Uuid.forced_bit i = false ->
               Z.testbit (Uuid.UUID_int 11 4) i = Z.testbit 11 i) /\
    String.length "0000000000004000800000000000000b" = 32%nat /\
    Uuid.all_chars Uuid.is_hex_digit "0000000000004000800000000000000b" = true /\
    Uuid.int_of_hex "0000000000004000800000000000000b" = Some (Uuid.UUID_int 11 4).
Proof.
  apply (C3_inserted_uuid_is_first_absent_candidate Scenario.env Scenario.crowded_world
           12 11 42 Scenario.space_one "P1" "U1" "Alice" "2024-01-08 00:00:00.000000").
  - lia.
  - reflexivity.
  - intros j Hj.
    assert (Hc : (j = 0 \/ j = 1 \/ j = 2 \/ j = 3 \/ j = 4 \/ j = 5 \/ j = 6 \/ j = 7 \/
                  j = 8 \/ j = 9 \/ j = 10)%nat) by lia.
    repeat (destruct Hc as [Hc|Hc]); subst j; vm_compute; discriminate.
  - reflexivity.
  - intros i _. reflexivity.
  - reflexivity.
Defined.



(** The same scenario, run: the stored text is the one the specification
    gives. *)
Example result_closed_at_three_days :
  result_closed_at Scenario.new_year 3 = Return "2024-01-04 00:00:00.000000" /\
  option_map fst
    (get_or_create_participant Scenario.env 1 42 Scenario.space_three_days "P1" "U1"
       "Alice" Scenario.fresh_world)
  = Some (Return (Some (Participant.mk 1 (Uuid.uuid4_hex 0) 42 1 "P1" "U1" "Alice"
                          "2024-01-04 00:00:00.000000"))).
Proof. split; vm_compute; reflexivity. Qed.

(** C5. On a miss get_or_create_space inserts a row with the supplied
    space_name, reads the row back by the key the store assigned
    (lastrowid), and returns the record it read: the key and the
    open_result_days the store filled in are in it, though no argument of the
    insert carried them. *)
Theorem C5_space_created_then_reread :
  forall env w organization_id space_code space_name,
    keys_below_counters (db w) ->
    fetchone (select_spaces_by_key organization_id space_code (db w)) = None ->
    (forall i, (statements w <= i < statements w + 3)%nat -> fault env i = None) ->
    let lastrowid := spaces_auto_increment (db w) in
    let row := Space.mk lastrowid organization_id space_code space_name
                 (default_open_result_days (db w)) in
    exists w',
      get_or_create_space env organization_id space_code space_name w
        = Some (Return (fetchone (select_spaces_by_id lastrowid (db w'))), w') /\
      fetchone (select_spaces_by_id lastrowid (db w')) = Some row /\
      spaces (db w') = spaces (db w) ++ [row] /\
      statements w' = (3 + statements w)%nat.
Proof.
  intros env w organization_id space_code space_name Hkeys Hmiss Hf lastrowid row.
  exists (mk_world (snd (insert_space organization_id space_code space_name (db w)))
            (entropy_used w) (clock_reads w) (3 + statements w)).
  split; [|split; [|split]].
  - rewrite get_or_create_space_miss by assumption. reflexivity.
  - cbn [db]. change lastrowid
      with (fst (insert_space organization_id space_code space_name (db w))).
    rewrite select_spaces_by_id_fresh by assumption. reflexivity.
  - reflexivity.
  - reflexivity.
Qed.

Lemma C5_witness_first_space :
  exists w',
    get_or_create_space Scenario.env 42 "S1" "Space One" Scenario.empty_world
      = Some (Return (fetchone (select_spaces_by_id 1 (db w'))), w') /\
    fetchone (select_spaces_by_id 1 (db w')) = Some Scenario.space_one /\
    spaces (db w') = [] ++ [Scenario.space_one] /\
    statements w' = 3%nat.
Proof.
  apply (C5_space_created_then_reread Scenario.env Scenario.empty_world 42 "S1" "Space One").
  - split; constructor.
  - reflexivity.
  - intros i _. reflexivity.
Defined.

(** C6. create_face_auth_log performs one insert per call, with reason and
    logs written as the text json.dumps gives, and nothing deduplicates: two
    calls with the same arguments on the same store both return True and
    leave two equal rows at the end of face_auth_logs, the first call one of
    them; no other table changes. *)
Theorem C6_two_appends_two_rows :
  forall env w organization_id space_id participant_id authentication_code
         is_authenticated reason logs threshold reason_json logs_json,
    Json.dumps reason = Return reason_json ->
    Json.dumps logs = Return logs_json ->
    fault env (statements w) = None ->
    fault env (S (statements w)) = None ->
    let row := FaceAuthLog.mk authentication_code organization_id space_id participant_id
                 is_authenticated reason_json logs_json threshold in
    exists w1 w2,
      create_face_auth_log env organization_id space_id participant_id authentication_code
        is_authenticated reason logs threshold w = Some (Return true, w1) /\
      create_face_auth_log env organization_id space_id participant_id authentication_code
        is_authenticated reason logs threshold w1 = Some (Return true, w2) /\
      face_auth_logs (db w1) = face_auth_logs (db w) ++ [row] /\
      face_auth_logs (db w2) = face_auth_logs (db w) ++ [row; row] /\
      List.length (face_auth_logs (db w2)) = (2 + List.length (face_auth_logs (db w)))%nat /\
      nth_error (face_auth_logs (db w2)) (List.length (face_auth_logs (db w))) = Some row /\
      nth_error (face_auth_logs (db w2)) (S (List.length (face_auth_logs (db w)))) = Some row /\
      statements w1 = S (statements w) /\ statements w2 = S (S (statements w)) /\
      spaces (db w2) = spaces (db w) /\ participants (db w2) = participants (db w) /\
      organization_apps (db w2) = organization_apps (db w).
Proof.
  intros env w organization_id space_id participant_id authentication_code
         is_authenticated reason logs threshold reason_json logs_json Hr Hl Hf0 Hf1 row.
  set (w1 := mk_world (snd (insert_face_auth_log row (db w)))
               (entropy_used w) (clock_reads w) (S (statements w))).
  set (w2 := mk_world (snd (insert_face_auth_log row (db w1)))
               (entropy_used w1) (clock_reads w1) (S (statements w1))).
  exists w1, w2.
  split; [rewrite create_face_auth_log_runs, Hr, Hl, Hf0; reflexivity|].
  split; [rewrite create_face_auth_log_runs, Hr, Hl; cbn [statements w1]; rewrite Hf1;
          reflexivity|].
  assert (Hrows : face_auth_logs (db w2) = face_auth_logs (db w) ++ [row; row]).
  { cbn [w2 w1 db snd insert_face_auth_log face_auth_logs].
    rewrite <- app_assoc. reflexivity. }
  split; [reflexivity|]. split; [exact Hrows|].
  split; [rewrite Hrows, length_app; cbn [List.length]; lia|].
  split; [rewrite Hrows, nth_error_app2, Nat.sub_diag by lia; reflexivity|].
  split.
  { rewrite Hrows, nth_error_app2 by lia.
    replace (S (List.length (face_auth_logs (db w))) - List.length (face_auth_logs (db w)))%nat
      with 1%nat by lia. reflexivity. }
  repeat split.
Qed.

Lemma C6_witness_same_log_twice :
  exists w1 w2,
    create_face_auth_log Scenario.env 42 1 1 "AC-1" true Scenario.reason Scenario.logs
      "0.6" Scenario.settled_world = Some (Return true, w1) /\
    create_face_auth_log Scenario.env 42 1 1 "AC-1" true Scenario.reason Scenario.logs
      "0.6" w1 = Some (Return true, w2) /\
    face_auth_logs (db w1) = [] ++ [Scenario.log_row] /\
    face_auth_logs (db w2) = [] ++ [Scenario.log_row; Scenario.log_row] /\
    List.length (face_auth_logs (db w2)) = 2%nat /\
    nth_error (face_auth_logs (db w2)) 0 = Some Scenario.log_row /\
    nth_error (face_auth_logs (db w2)) 1 = Some Scenario.log_row /\
    statements w1 = 1%nat /\ statements w2 = 2%nat /\
    spaces (db w2) = [Scenario.space_one] /\ participants (db w2) = [Scenario.alice] /\
    organization_apps (db w2) = [].
Proof.
  apply (C6_two_appends_two_rows Scenario.env Scenario.settled_world 42 1 1 "AC-1" true
           Scenario.reason Scenario.logs "0.6"
           (FaceAuthLog.reason Scenario.log_row) (FaceAuthLog.logs Scenario.log_row));
    reflexivity.
Defined.

(** C7. get_parameter tells the failures of the parameter store apart. When
    the request succeeds the value is the parameter's Value; when it raises
    ParameterNotFound the value is the default and one warning naming the key
    is logged; when it raises anything else (as when creating the client
    raises) the same exception reaches the caller and nothing is logged.
    Every run is one of these. *)
Theorem C7_get_parameter_failure_shapes :
  forall env param_key default_value w,
    SsmUtils.get_parameter env param_key default_value w =
    match SsmUtils.boto3_client env with
    | Raise e => Some (Raise e, w)
    | Return _ =>
        match SsmUtils.ssm_get_parameter env param_key true with
        | Return response =>
            Some (Return (PyStr (SsmUtils.Value (SsmUtils.Parameter_ response))), w)
        | Raise e =>
            if isinstance e ParameterNotFound
            then Some (Return default_value,
                       SsmUtils.mk_world
                         (SsmUtils.log w
                          ++ [SsmUtils.mk_record "WARNING"
                                ("Parameter {" +++ param_key
                                 +++ "} not found. Returning default value.")]))
            else Some (Raise e, w)
        end
    end.
Proof.
  intros env param_key default_value w.
  unfold SsmUtils.get_parameter. unfold bind at 1. unfold lift at 1.
  destruct (SsmUtils.boto3_client env) as [[]|e]; [|reflexivity].
  unfold try_. unfold bind at 1. unfold lift at 1.
  destruct (SsmUtils.ssm_get_parameter env param_key true) as [response|e];
    [reflexivity|].
  cbn [handle]. destruct (isinstance e ParameterNotFound); [reflexivity|].
  destruct (isinstance e Exception); reflexivity.
Qed.

(** The three shapes on a parameter store that serves one name, refuses
    another and knows no other. *)
Example get_parameter_three_shapes :
  SsmUtils.get_parameter Scenario.ssm_env "/proctorwis/api-key" PyNone (SsmUtils.mk_world [])
  = Some (Return (PyStr "s3cr3t"), SsmUtils.mk_world []) /\
  SsmUtils.get_parameter Scenario.ssm_env "/proctorwis/missing" (PyStr "fallback")
    (SsmUtils.mk_world [])
  = Some (Return (PyStr "fallback"),
          SsmUtils.mk_world
            [SsmUtils.mk_record "WARNING"
               "Parameter {/proctorwis/missing} not found. Returning default value."]) /\
  SsmUtils.get_parameter Scenario.ssm_env "/proctorwis/forbidden" (PyStr "fallback")
    (SsmUtils.mk_world [])
  = Some (Raise (mk_exn ClientError "AccessDeniedException"), SsmUtils.mk_world []).
Proof. repeat split. Qed.



(** The two answers of the lookup, run: a record, and None. *)
Example organization_app_found_and_absent :
  option_map fst (get_organization_app Scenario.env "01234567-89ab-cdef-0123-456789abcdef"
                    Scenario.registry_world)
  = Some (Return (hd_error Scenario.registry)) /\
  option_map fst (get_organization_app Scenario.env "ffffffff-ffff-ffff-ffff-ffffffffffff"
                    Scenario.registry_world)
  = Some (Return None).
Proof. split; vm_compute; reflexivity. Qed.



(** C10. create_face_auth_log never reports failure through its value. A
    run always ends; when it returns, the value is True and one row was
    appended; when json.dumps raises on reason, or on logs after reason, the
    run raises that exception with the world as it was, so the INSERT was
    not sent and no row exists; when the server fails the INSERT the run
    raises the server's exception and the tables are as they were. *)
Theorem C10_create_face_auth_log_fails_by_raising :
  forall env w organization_id space_id participant_id authentication_code
         is_authenticated reason logs threshold,
    let run := create_face_auth_log env organization_id space_id participant_id
                 authentication_code is_authenticated reason logs threshold w in
    (exists o w', run = Some (o, w')) /\
    (forall b w', run = Some (Return b, w') ->
       b = true /\
       exists reason_json logs_json,
         Json.dumps reason = Return reason_json /\ Json.dumps logs = Return logs_json /\
         fault env (statements w) = None /\
         face_auth_logs (db w')
         = face_auth_logs (db w)
           ++ [FaceAuthLog.mk authentication_code organization_id space_id participant_id
                 is_authenticated reason_json logs_json threshold]) /\
    (forall e, Json.dumps reason = Raise e -> run = Some (Raise e, w)) /\
    (forall reason_json e,
       Json.dumps reason = Return reason_json -> Json.dumps logs = Raise e ->
       run = Some (Raise e, w)) /\
    (forall reason_json logs_json e,
       Json.dumps reason = Return reason_json -> Json.dumps logs = Return logs_json ->
       fault env (statements w) = Some e ->
       run = Some (Raise e, one_statement_later w)) /\
    (forall e w', run = Some (Raise e, w') -> db w' = db w).
Proof.
  intros env w organization_id space_id participant_id authentication_code
         is_authenticated reason logs threshold run.
  unfold run. rewrite create_face_auth_log_runs.
  destruct (Json.dumps reason) as [rj|e1] eqn:Hr;
    [destruct (Json.dumps logs) as [lj|e2] eqn:Hl;
     [destruct (fault env (statements w)) as [e3|] eqn:Hf|]|].
  all: split; [eexists; eexists; reflexivity|].
  all: split; [intros b w' H; try discriminate|].
  all: try (injection H as <- <-; split; [reflexivity|];
            exists rj, lj; repeat split; reflexivity).
  all: split; [intros e H; try discriminate; injection H as <-; reflexivity|].
  all: split; [intros r e H1 H2; try discriminate;
               injection H1 as <-; try injection H2 as <-; reflexivity|].
  all: split; [intros r l e H1 H2 H3; try discriminate;
               injection H3 as <-; reflexivity|].
  all: intros e w' H; try discriminate; injection H as _ <-; reflexivity.
Qed.

(** A document json.dumps cannot write: the run raises, and the store has
    no new row. *)
Example unserializable_reason_creates_no_row :
  create_face_auth_log Scenario.env 42 1 1 "AC-1" false
    (PyDict [(PyStr "embedding", PyObject "ndarray")]) Scenario.logs "0.6"
    Scenario.settled_world
  = Some (Raise (mk_exn TypeError "Object of type ndarray is not JSON serializable"),
          Scenario.settled_world).
Proof. vm_compute. reflexivity. Qed.
